(** * Customer segmentation service: the prediction and visualization pipeline

  A shallow embedding of [app.py]: the [/predict] route, the
  [generate_visualizations] helper and the process-wide [data_store],
  together with the two frozen inference artifacts the route consults.

  Conventions.
  - Python integers are [Z]; cluster labels (array indices) are [nat].
  - Form values are strings of code points below 256.
  - The dictionaries of the program ([request.form], [images], the files
    under [static/]) are [gmap]s keyed by strings.
  - Feature values are exact rationals [Q]; the binary floating point of
    the numeric library is not modelled.
  - Every route body runs in the monad [M]: a reader of the request's
    environment (which library calls raise), a state of the process
    globals, and Python exceptions.  An exception keeps the state changes
    made before it was raised, as in Python.

  Library calls.
  - [int()] is modelled on code points below 256, where only the ASCII
    digits are decimal digits, with the default limit on the number of
    digits of a literal.
  - [scaler.transform] and [kmeans.predict] raise on the arrays the
    fitted objects refuse (integers beyond the range of a float, for one);
    which arrays those are is part of each artifact.
  - [os.makedirs], the plotting calls inside the [try] of
    [generate_visualizations] and [render_template] raise when the
    environment of the request says so.  [flash], [redirect], [print],
    the list append and the construction of the data frame are total.
  - [@login_required]: the routes of [App] are modelled for a logged-in
    user; [Site] puts the gate of the login manager in front of them,
    with the user table and the password functions as part of the
    environment of a request. *)

From Stdlib Require Import ZArith QArith Lia Lqa Btauto.
From Stdlib Require Reals Qreals Lra.
From Stdlib Require Import Ascii String DecimalString DecimalPos DecimalFacts.
From stdpp Require Import base gmap strings list.

Local Open Scope Z_scope.

(** ** Python builtins used by the route *)

Module Py.

(** A value handed to [int()]: a form string, or the integer default of
    [request.form.get(key, 0)]. *)
Inductive Val :=
| Str (s : string)
| Int (z : Z).

(** Exceptions.  [ValueError_literal s] is the [ValueError] that [int(s)]
    raises on a string that is no integer literal (its text quotes [s]);
    [ValueError_limit n] is the [ValueError] that [int()] raises on a
    literal of [n] digits, more than the interpreter converts (its text
    tells the limit and [n]); [ValueError msg] is one raised with an
    explicit message; [Fault msg] is any exception raised inside a library
    call (the operating system, the numeric and plotting stacks, the
    template engine). *)
Inductive Exn :=
| ValueError_literal (s : string)
| ValueError_limit (digits : N)
| ValueError (msg : string)
| Fault (msg : string).

Definition is_ValueError (e : Exn) : bool :=
  match e with
  | ValueError_literal _ | ValueError_limit _ | ValueError _ => true
  | Fault _ => false
  end.

Definition code (a : ascii) : N := N_of_ascii a.

(** Whitespace skipped by [int()] around the literal: tab to carriage
    return, space, and (after the transformation to ASCII that precedes
    parsing) NEL and the no-break space. *)
Definition is_space (a : ascii) : bool :=
  let n := code a in
  (((9 <=? n) && (n <=? 13)) || (n =? 32) || (n =? 133) || (n =? 160))%N.

Definition is_digit (a : ascii) : bool :=
  let n := code a in ((48 <=? n) && (n <=? 57))%N.

Definition digit_value (a : ascii) : Z := Z.of_N (code a - 48).

Definition is_underscore (a : ascii) : bool := (code a =? 95)%N.
Definition is_plus (a : ascii) : bool := (code a =? 43)%N.
Definition is_minus (a : ascii) : bool := (code a =? 45)%N.

Fixpoint skip_space (s : string) : string :=
  match s with
  | String a s' => if is_space a then skip_space s' else s
  | EmptyString => EmptyString
  end.

(** The digit loop of the base-10 parser: digits accumulate, a single
    underscore may sit between two digits, anything else ends the run.
    [prev_us] records that the previous character was an underscore.
    Returns the value and the unread rest. *)
Fixpoint scan_digits (s : string) (acc : Z) (prev_us : bool)
  : option (Z * string) :=
  match s with
  | EmptyString => if prev_us then None else Some (acc, EmptyString)
  | String a s' =>
      if is_digit a then scan_digits s' (10 * acc + digit_value a) false
      else if is_underscore a then
        if prev_us then None else scan_digits s' acc true
      else if prev_us then None else Some (acc, s)
  end.

(** The number of digits of the run that [scan_digits] reads; the
    underscores are not counted. *)
Fixpoint count_digits (s : string) : N :=
  match s with
  | EmptyString => 0%N
  | String a s' =>
      if is_digit a then N.succ (count_digits s')
      else if is_underscore a then count_digits s'
      else 0%N
  end.

(** [sys.int_info.default_max_str_digits]: the longest digit run [int()]
    converts, in the interpreters that limit it (CPython 3.11 and the
    releases the limit was carried back to) and with the limit left at its
    default. *)
Definition max_str_digits : N := 4300%N.

(** [int(s)] for a string, base 10: optional surrounding whitespace, an
    optional sign, then a digit run that starts with a digit and has no
    more digits than the limit; nothing else may follow.  [None] stands
    for the [ValueError]. *)
Definition int_of_string (s : string) : option Z :=
  let s1 := skip_space s in
  let '(neg, s2) :=
    match s1 with
    | String a r =>
        if is_minus a then (true, r)
        else if is_plus a then (false, r)
        else (false, s1)
    | EmptyString => (false, s1)
    end in
  match s2 with
  | String a _ =>
      if is_digit a then
        match scan_digits s2 0 false with
        | Some (z, rest) =>
            if (max_str_digits <? count_digits s2)%N then None
            else
              match skip_space rest with
              | EmptyString => Some (if neg then - z else z)
              | String _ _ => None
              end
        | None => None
        end
      else None
  | EmptyString => None
  end.

(** The digit count of a string whose digit run is well formed and longer
    than the limit: the case in which [int()] complains of the length and
    not of the literal. *)
Definition over_limit (s : string) : option N :=
  let s1 := skip_space s in
  let s2 :=
    match s1 with
    | String a r => if is_minus a then r else if is_plus a then r else s1
    | EmptyString => s1
    end in
  match s2 with
  | String a _ =>
      if is_digit a then
        match scan_digits s2 0 false with
        | Some _ =>
            if (max_str_digits <? count_digits s2)%N
            then Some (count_digits s2) else None
        | None => None
        end
      else None
  | EmptyString => None
  end.

(** The [ValueError] of [int(s)] for a string it does not convert. *)
Definition int_error (s : string) : Exn :=
  match over_limit s with
  | Some n => ValueError_limit n
  | None => ValueError_literal s
  end.

(** [int(v)]: the identity on an integer, the parser on a string. *)
Definition int (v : Val) : Exn + Z :=
  match v with
  | Int z => inr z
  | Str s =>
      match int_of_string s with
      | Some z => inr z
      | None => inl (int_error s)
      end
  end.

(** [all(bs)] on a list of booleans. *)
Definition all (bs : list bool) : bool := forallb (fun b => b) bs.

(** The text of a label inside an f-string: its decimal digits. *)
Definition format_nat (n : nat) : string :=
  NilZero.string_of_uint (Nat.to_uint n).

(** A character that can occur in some integer literal accepted by
    [int()]. *)
Definition literal_char (a : ascii) : bool :=
  is_space a || is_digit a || is_underscore a || is_plus a || is_minus a.

Fixpoint forall_chars (p : ascii -> bool) (s : string) : bool :=
  match s with
  | EmptyString => true
  | String a s' => p a && forall_chars p s'
  end.

Fixpoint exists_char (p : ascii -> bool) (s : string) : bool :=
  match s with
  | EmptyString => false
  | String a s' => p a || exists_char p s'
  end.

(** A string is numeric-looking when it is made of literal characters
    only and holds at least one digit. *)
Definition numeric (s : string) : bool :=
  forall_chars literal_char s && exists_char is_digit s.

End Py.

(** ** The inference artifacts *)

Module Artifacts.

Local Open Scope Q_scope.

(** One row of the array built by the route: the three columns in the
    order age, income, score. *)
Record Features := { f_age : Q; f_income : Q; f_score : Q }.

(** Modelled from the spec: the Scaler.  The fitted object is unpickled
    from [models/scaler.pkl], which is not among the sources; the spec
    gives it as a frozen per-feature transform with one center and one
    scale value per feature.  [transform_raises] tells on which arrays
    [scaler.transform] raises instead (the library checks its input and
    converts it to floats before it computes), and with what message. *)
Record Scaler := {
  center : Features;
  scale : Features;
  transform_raises : list Features -> option string
}.

(** Modelled from the spec: the Scaler's per-feature transform of one
    row, [(x - center) / scale] in each column. *)
Definition transform_row (s : Scaler) (x : Features) : Features :=
  {| f_age := (f_age x - f_age (center s)) / f_age (scale s);
     f_income := (f_income x - f_income (center s)) / f_income (scale s);
     f_score := (f_score x - f_score (center s)) / f_score (scale s) |}.

(** Modelled from the spec: [scaler.transform] on an array of rows. *)
Definition transform (s : Scaler) (X : list Features) : list Features :=
  map (transform_row s) X.

(** Modelled from the spec: the Cluster Model.  The fitted object is
    unpickled from [models/kmeans_model.pkl], which is not among the
    sources; the spec gives it as a fixed set of centroid vectors in
    normalized feature space.  A fitted model has at least one centroid:
    the one of label 0 is kept apart from those of labels 1, 2, ...
    [predict_raises] tells on which arrays [kmeans.predict] raises
    instead, and with what message. *)
Record KMeans := {
  first_centroid : Features;
  other_centroids : list Features;
  predict_raises : list Features -> option string
}.

Definition cluster_centers (km : KMeans) : list Features :=
  first_centroid km :: other_centroids km.

Definition n_clusters (km : KMeans) : nat := length (cluster_centers km).

(** The squared Euclidean distance of two rows. *)
Definition sqdist (x c : Features) : Q :=
  (f_age x - f_age c) * (f_age x - f_age c)
  + (f_income x - f_income c) * (f_income x - f_income c)
  + (f_score x - f_score c) * (f_score x - f_score c).

Definition Qlt_bool (a b : Q) : bool :=
  match a ?= b with Lt => true | _ => false end.

(** Modelled from the spec: the scan of an argmin.  [i] is the label of
    the head of [cs]; [best] is the label kept so far and [best_d] its
    distance.  A later centroid replaces the kept one only when it is
    strictly nearer. *)
Fixpoint argmin_from (x : Features) (cs : list Features)
         (i best : nat) (best_d : Q) : nat :=
  match cs with
  | [] => best
  | c :: cs' =>
      let d := sqdist x c in
      if Qlt_bool d best_d
      then argmin_from x cs' (S i) i d
      else argmin_from x cs' (S i) best best_d
  end.

(** Modelled from the spec: the label assigned to one normalized row,
    the nearest centroid by Euclidean distance. *)
Definition assign (km : KMeans) (x : Features) : nat :=
  argmin_from x (other_centroids km) 1 0 (sqdist x (first_centroid km)).

(** Modelled from the spec: [kmeans.predict] on an array of rows. *)
Definition predict (km : KMeans) (X : list Features) : list nat :=
  map (assign km) X.

(** The Euclidean distance itself, a real number. *)
Definition euclidean (x c : Features) : Rdefinitions.R :=
  R_sqrt.sqrt (Rdefinitions.Q2R (sqdist x c)).

(** Two rows with equal columns (as rationals). *)
Definition Feq (x y : Features) : Prop :=
  f_age x == f_age y /\ f_income x == f_income y /\ f_score x == f_score y.

(** The invariant of the scan: [pre] holds the centroids already seen,
    [best] is the first of them at minimum distance [d]. *)
Record kept (x : Features) (pre : list Features) (best : nat) (d : Q) : Prop := {
  kept_here : exists c, pre !! best = Some c /\ sqdist x c == d;
  kept_least : forall j c, pre !! j = Some c -> d <= sqdist x c;
  kept_first : forall j c, (j < best)%nat -> pre !! j = Some c -> d < sqdist x c
}.

End Artifacts.

(** ** The application *)

Module App.

Import Artifacts.

(** *** Data *)

(** One entry of [data_store]: the dictionary with the keys [Age],
    [Income], [Score] and [Cluster]. *)
Record Observation := { Age : Z; Income : Z; Score : Z; Cluster : nat }.

(** The four charts, in the order they are drawn. *)
Inductive Chart := IncomeVsScore | AgeVsScore | AgeVsIncome | ClusterDistribution.

(** What a figure shows: the points of a scatter plot, each with its hue,
    or the bars of a count plot, one per distinct label. *)
Inductive PlotData :=
| ScatterPoints (points : list (Z * Z * nat))
| CountBars (bars : gmap nat nat).

Record Figure := {
  fig_data : PlotData;
  fig_palette : string;
  fig_title : string;
  fig_xlabel : string;
  fig_ylabel : string
}.

(** The message of [flash(f'Error processing your request: {str(e)}',
    'danger')], kept as the exception it quotes, and its category. *)
Record Flash := { flash_error : Py.Exn; flash_category : string }.

(** A line printed by [generate_visualizations]:
    [Error generating visualizations: {str(e)}], kept as the exception it
    quotes. *)
Inductive LogLine := ErrorGeneratingVisualizations (e : Py.Exn).

(** What a route returns. *)
Inductive Response :=
| Rendered (template : string) (prediction : option string)
           (images : option (gmap string string))
| Redirect (endpoint : string).

(** The process globals and the parts of the outside world the pipeline
    writes to. *)
Record State := {
  scaler : Scaler;
  kmeans : KMeans;
  data_store : list Observation;
  static : gmap string Figure;
  stdout : list LogLine;
  flashes : list Flash
}.

(** The three calls of a chart's block that reach the plotting stack:
    drawing (from [plt.figure] to [plt.ylabel]), [plt.savefig] and
    [plt.close]. *)
Inductive ChartStep := Draw | Save | Close.

(** The environment of one request: which library calls raise, and with
    what message. *)
Record Env := {
  makedirs_raises : option string;
  plot_raises : Chart -> ChartStep -> option string;
  render_raises : option string
}.

(** *** The monad of route bodies *)

Inductive Outcome (A : Type) :=
| Return (a : A)
| Raised (e : Py.Exn).
Arguments Return {A} a.
Arguments Raised {A} e.

Definition M (A : Type) : Type := Env -> State -> Outcome A * State.

Definition ret {A} (a : A) : M A := fun _ st => (Return a, st).

Definition bind {A B} (m : M A) (k : A -> M B) : M B :=
  fun env st =>
    match m env st with
    | (Return a, st') => k a env st'
    | (Raised e, st') => (Raised e, st')
    end.

Definition raise {A} (e : Py.Exn) : M A := fun _ st => (Raised e, st).

(** [try: body except Exception as e: handler(e)]. *)
Definition try_except {A} (body : M A) (handler : Py.Exn -> M A) : M A :=
  fun env st =>
    match body env st with
    | (Return a, st') => (Return a, st')
    | (Raised e, st') => handler e env st'
    end.

Definition get : M State := fun _ st => (Return st, st).
Definition ask : M Env := fun env st => (Return env, st).
Definition modify (f : State -> State) : M unit := fun _ st => (Return tt, f st).

#[export] Instance M_ret : MRet M := @ret.
#[export] Instance M_bind : MBind M := fun A B k m => bind m k.

(** A library call that raises when the environment says so. *)
Definition may_raise (fault : option string) : M unit :=
  match fault with
  | Some msg => raise (Py.Fault msg)
  | None => mret tt
  end.

(** *** State updates *)

Definition set_data_store (ds : list Observation) (st : State) : State :=
  {| scaler := scaler st; kmeans := kmeans st; data_store := ds;
     static := static st; stdout := stdout st; flashes := flashes st |}.

Definition set_static (fs : gmap string Figure) (st : State) : State :=
  {| scaler := scaler st; kmeans := kmeans st; data_store := data_store st;
     static := fs; stdout := stdout st; flashes := flashes st |}.

Definition set_stdout (out : list LogLine) (st : State) : State :=
  {| scaler := scaler st; kmeans := kmeans st; data_store := data_store st;
     static := static st; stdout := out; flashes := flashes st |}.

Definition set_flashes (fl : list Flash) (st : State) : State :=
  {| scaler := scaler st; kmeans := kmeans st; data_store := data_store st;
     static := static st; stdout := stdout st; flashes := fl |}.

(** *** Primitive operations *)

(** [request.form.get(key, default)]. *)
Definition form_get (form : gmap string string) (key : string) (default : Py.Val)
  : Py.Val :=
  match form !! key with
  | Some v => Py.Str v
  | None => default
  end.

(** [int(v)] inside a route. *)
Definition py_int (v : Py.Val) : M Z :=
  match Py.int v with
  | inr z => mret z
  | inl e => raise e
  end.

(** [np.array([[age, income, score]])]. *)
Definition np_array (age income score : Z) : list Features :=
  [ {| f_age := inject_Z age; f_income := inject_Z income;
       f_score := inject_Z score |} ].

(** [scaler.transform(data)]: reads the global, changes nothing; raises
    on an array the scaler refuses. *)
Definition scaler_transform (X : list Features) : M (list Features) :=
  st ← get;
  match transform_raises (scaler st) X with
  | Some msg => raise (Py.Fault msg)
  | None => mret (transform (scaler st) X)
  end.

(** [kmeans.predict(data_scaled)]: reads the global, changes nothing;
    raises on an array the model refuses. *)
Definition kmeans_predict (X : list Features) : M (list nat) :=
  st ← get;
  match predict_raises (kmeans st) X with
  | Some msg => raise (Py.Fault msg)
  | None => mret (predict (kmeans st) X)
  end.

(** [labels[0]]. *)
Definition index0 (labels : list nat) : M nat :=
  match labels with
  | l :: _ => mret l
  | [] => raise (Py.Fault "index 0 is out of bounds")
  end.

(** [data_store.append(o)]. *)
Definition data_store_append (o : Observation) : M unit :=
  modify (fun st => set_data_store (data_store st ++ [o]) st).

(** [os.makedirs(path, exist_ok=True)]. *)
Definition os_makedirs (path : string) : M unit :=
  env ← ask; may_raise (makedirs_raises env).

(** [render_template(name, prediction=..., images=...)]. *)
Definition render_template (name : string) (prediction : option string)
           (images : option (gmap string string)) : M Response :=
  env ← ask; may_raise (render_raises env);;
  mret (Rendered name prediction images).

(** [flash(message, category)]. *)
Definition flash (e : Py.Exn) (category : string) : M unit :=
  modify (fun st =>
    set_flashes (flashes st ++ [{| flash_error := e; flash_category := category |}]) st).

(** [redirect(url_for(endpoint))]. *)
Definition redirect (endpoint : string) : M Response := mret (Redirect endpoint).

(** [print(f"Error generating visualizations: {str(e)}")]. *)
Definition print (line : LogLine) : M unit :=
  modify (fun st => set_stdout (stdout st ++ [line]) st).

(** *** The Visualization Generator *)

(** [pd.DataFrame(data_store)]: the rows of the store, in order. *)
Definition DataFrame (rows : list Observation) : list Observation := rows.

(** The bars of [sns.countplot(x="Cluster", ...)]: for every label that
    occurs, the number of rows that carry it. *)
Definition countplot (df : list Observation) : gmap nat nat :=
  foldr (fun o bars => <[Cluster o := S (default 0%nat (bars !! Cluster o))]> bars) ∅ df.

(** The points of [sns.scatterplot(x=..., y=..., hue="Cluster", ...)]. *)
Definition scatterplot (x y : Observation -> Z) (df : list Observation)
  : list (Z * Z * nat) :=
  map (fun o => (x o, y o, Cluster o)) df.

(** The figure each block draws. *)
Definition figure_of (c : Chart) (df : list Observation) : Figure :=
  match c with
  | IncomeVsScore =>
      {| fig_data := ScatterPoints (scatterplot Income Score df);
         fig_palette := "viridis";
         fig_title := "Income vs. Spending Score";
         fig_xlabel := "Annual Income (k$)";
         fig_ylabel := "Spending Score (1-100)" |}
  | AgeVsScore =>
      {| fig_data := ScatterPoints (scatterplot Age Score df);
         fig_palette := "coolwarm";
         fig_title := "Age vs. Spending Score";
         fig_xlabel := "Age";
         fig_ylabel := "Spending Score (1-100)" |}
  | AgeVsIncome =>
      {| fig_data := ScatterPoints (scatterplot Age Income df);
         fig_palette := "Set1";
         fig_title := "Age vs. Income";
         fig_xlabel := "Age";
         fig_ylabel := "Annual Income (k$)" |}
  | ClusterDistribution =>
      {| fig_data := CountBars (countplot df);
         fig_palette := "pastel";
         fig_title := "Cluster Distribution";
         fig_xlabel := "Cluster";
         fig_ylabel := "Number of Customers" |}
  end.

(** The key under which a chart is returned. *)
Definition chart_key (c : Chart) : string :=
  match c with
  | IncomeVsScore => "income_vs_score"
  | AgeVsScore => "age_vs_score"
  | AgeVsIncome => "age_vs_income"
  | ClusterDistribution => "cluster_distribution"
  end.

(** The file name stored under the key. *)
Definition chart_file (c : Chart) : string := chart_key c +:+ ".png".

(** [os.path.join('static', file)]. *)
Definition img_path (c : Chart) : string := "static/" +:+ chart_file c.

(** One call into the plotting stack. *)
Definition plt (c : Chart) (s : ChartStep) : M unit :=
  env ← ask; may_raise (plot_raises env c s).

(** One numbered block of the [try] body: draw, save (the file replaces
    any older one of the same name), close, record the key. *)
Definition chart_block (c : Chart) (df : list Observation)
           (images : gmap string string) : M (gmap string string) :=
  plt c Draw;;
  plt c Save;;
  modify (fun st => set_static (<[img_path c := figure_of c df]> (static st)) st);;
  plt c Close;;
  mret (<[chart_key c := chart_file c]> images).

Definition generate_visualizations : M (option (gmap string string)) :=
  st ← get;
  match data_store st with
  | [] => mret None
  | _ :: _ =>
      let df := DataFrame (data_store st) in
      let images : gmap string string := ∅ in
      try_except
        (images ← chart_block IncomeVsScore df images;
         images ← chart_block AgeVsScore df images;
         images ← chart_block AgeVsIncome df images;
         images ← chart_block ClusterDistribution df images;
         mret (Some images))
        (fun e => print (ErrorGeneratingVisualizations e);; mret None)
  end.

(** *** The routes *)

(** The range check of the route:
    [all([age > 0, income > 0, 0 < score <= 100])]. *)
Definition in_range (age income score : Z) : bool :=
  Py.all [age >? 0; income >? 0; (0 <? score) && (score <=? 100)].

(** [/predict], for a logged-in user. *)
Definition predict (form : gmap string string) : M Response :=
  try_except
    (age ← py_int (form_get form "age" (Py.Int 0));
     income ← py_int (form_get form "income" (Py.Int 0));
     score ← py_int (form_get form "score" (Py.Int 0));
     (if negb (in_range age income score)
      then raise (Py.ValueError "Invalid input values")
      else mret tt);;
     let data := np_array age income score in
     data_scaled ← scaler_transform data;
     labels ← kmeans_predict data_scaled;
     cluster ← index0 labels;
     data_store_append
       {| Age := age; Income := income; Score := score; Cluster := cluster |};;
     os_makedirs "static";;
     images ← generate_visualizations;
     render_template "index.html"
       (Some ("Customer belongs to Cluster " +:+ Py.format_nat cluster))
       images)
    (fun e => flash e "danger";; redirect "dashboard").

(** [/dashboard], for a logged-in user. *)
Definition dashboard : M Response := render_template "index.html" None None.

(** *** Runs of the process *)

(** One operation on the pipeline, with the environment it meets. *)
Inductive Call :=
| CallPredict (env : Env) (form : gmap string string)
| CallVisualize (env : Env)
| CallDashboard (env : Env).

Definition step (st : State) (c : Call) : State :=
  match c with
  | CallPredict env form => snd (predict form env st)
  | CallVisualize env => snd (generate_visualizations env st)
  | CallDashboard env => snd (dashboard env st)
  end.

Definition run (calls : list Call) (st : State) : State :=
  fold_left step calls st.

(** *** Vocabulary of the properties *)

(** The three form fields the route reads. *)
Definition fields : list string := ["age"; "income"; "score"].

(** The integer the route obtains for a field, when [int()] returns. *)
Definition field (form : gmap string string) (key : string) : option Z :=
  match Py.int (form_get form key (Py.Int 0)) with
  | inr z => Some z
  | inl _ => None
  end.

(** A request whose three fields read as [age], [income], [score]. *)
Definition reads (form : gmap string string) (age income score : Z) : Prop :=
  field form "age" = Some age /\ field form "income" = Some income /\
  field form "score" = Some score.

(** The valid inputs: [age > 0], [income > 0], [0 < score <= 100]. *)
Definition valid (age income score : Z) : Prop :=
  age > 0 /\ income > 0 /\ 0 < score <= 100.

(** The invalid requests: a field that is present and is not numeric, or
    on which [int()] raises, or three integers of which one is out of
    range. *)
Inductive invalid (form : gmap string string) : Prop :=
| invalid_text key v :
    key ∈ fields -> form !! key = Some v -> Py.numeric v = false ->
    invalid form
| invalid_literal key v :
    key ∈ fields -> form !! key = Some v -> Py.int_of_string v = None ->
    invalid form
| invalid_range age income score :
    reads form age income score ->
    age <= 0 \/ income <= 0 \/ score <= 0 \/ score > 100 ->
    invalid form.

(** The label the artifacts of [st] give to a raw triple. *)
Definition label_of (st : State) (age income score : Z) : nat :=
  assign (kmeans st)
         (transform_row (scaler st)
            {| f_age := inject_Z age; f_income := inject_Z income;
               f_score := inject_Z score |}).

(** The exception the two artifacts of [st] raise on a raw triple, if
    any: the one of [scaler.transform], else the one of [kmeans.predict]
    on the normalized array. *)
Definition assignment_error (st : State) (age income score : Z) : option Py.Exn :=
  let data := np_array age income score in
  match transform_raises (scaler st) data with
  | Some msg => Some (Py.Fault msg)
  | None =>
      match predict_raises (kmeans st) (transform (scaler st) data) with
      | Some msg => Some (Py.Fault msg)
      | None => None
      end
  end.

Definition observation (st : State) (age income score : Z) : Observation :=
  {| Age := age; Income := income; Score := score;
     Cluster := label_of st age income score |}.

(** The summary string of a label. *)
Definition summary (label : nat) : string :=
  "Customer belongs to Cluster " +:+ Py.format_nat label.

(** The Observation a call submits to the store, if any: the one of a
    predict request with valid input that the artifacts assign a label
    to. *)
Definition submitted (st : State) (c : Call) : option Observation :=
  match c with
  | CallPredict _ form =>
      match field form "age", field form "income", field form "score" with
      | Some age, Some income, Some score =>
          if in_range age income score
          then
            match assignment_error st age income score with
            | None => Some (observation st age income score)
            | Some _ => None
            end
          else None
      | _, _, _ => None
      end
  | CallVisualize _ | CallDashboard _ => None
  end.

(** The complete chart result. *)
Definition four_charts : gmap string string :=
  list_to_map [ ("income_vs_score", "income_vs_score.png");
                ("age_vs_score", "age_vs_score.png");
                ("age_vs_income", "age_vs_income.png");
                ("cluster_distribution", "cluster_distribution.png") ].

(** An environment in which no call into the plotting stack raises, and
    one in which some call does. *)
Definition plots_ok (env : Env) : Prop :=
  forall c s, plot_raises env c s = None.

Definition plot_fails (env : Env) : Prop :=
  exists c s msg, plot_raises env c s = Some msg.

(** The state after the store gained [o]. *)
Definition appended (o : Observation) (st : State) : State :=
  set_data_store (data_store st ++ [o]) st.

(** The state after [flash(..., 'danger')] quoted [e]. *)
Definition flashed (e : Py.Exn) (st : State) : State :=
  set_flashes (flashes st ++ [{| flash_error := e; flash_category := "danger" |}]) st.

(** The state after the generator printed that [e] stopped it. *)
Definition logged (e : Py.Exn) (st : State) : State :=
  set_stdout (stdout st ++ [ErrorGeneratingVisualizations e]) st.

(** The exception the first half of the route raises, before anything is
    stored: the first [int()] that fails, else the range check. *)
Definition validation_error (form : gmap string string) : option Py.Exn :=
  match Py.int (form_get form "age" (Py.Int 0)) with
  | inl e => Some e
  | inr age =>
      match Py.int (form_get form "income" (Py.Int 0)) with
      | inl e => Some e
      | inr income =>
          match Py.int (form_get form "score" (Py.Int 0)) with
          | inl e => Some e
          | inr score =>
              if in_range age income score then None
              else Some (Py.ValueError "Invalid input values")
          end
      end
  end.

(** The exception the route raises before the append, if any: the one of
    validation, else the one of the artifacts on the values read. *)
Definition early_error (st : State) (form : gmap string string) : option Py.Exn :=
  match validation_error form with
  | Some e => Some e
  | None =>
      match field form "age", field form "income", field form "score" with
      | Some age, Some income, Some score => assignment_error st age income score
      | _, _, _ => None
      end
  end.

(** The calls into the plotting stack, in program order. *)
Definition schedule : list (Chart * ChartStep) :=
  c ← [IncomeVsScore; AgeVsScore; AgeVsIncome; ClusterDistribution];
  s ← [Draw; Save; Close];
  [(c, s)].

(** The first call of a list that raises, with its message. *)
Fixpoint first_fault_in (env : Env) (calls : list (Chart * ChartStep))
  : option (Chart * ChartStep * string) :=
  match calls with
  | [] => None
  | (c, s) :: calls' =>
      match plot_raises env c s with
      | Some msg => Some (c, s, msg)
      | None => first_fault_in env calls'
      end
  end.

Definition first_fault (env : Env) : option (Chart * ChartStep * string) :=
  first_fault_in env schedule.

(** The charts whose file is written before the call [(c, s)] raises. *)
Definition saved_before (c : Chart) (s : ChartStep) : list Chart :=
  let earlier :=
    match c with
    | IncomeVsScore => []
    | AgeVsScore => [IncomeVsScore]
    | AgeVsIncome => [IncomeVsScore; AgeVsScore]
    | ClusterDistribution => [IncomeVsScore; AgeVsScore; AgeVsIncome]
    end in
  match s with
  | Draw | Save => earlier
  | Close => earlier ++ [c]
  end.

(** The state after the files of [cs] were written from [df], in order. *)
Definition save (cs : list Chart) (df : list Observation) (st : State) : State :=
  set_static (foldl (fun fs c => <[img_path c := figure_of c df]> fs) (static st) cs) st.

Definition all_charts : list Chart :=
  [IncomeVsScore; AgeVsScore; AgeVsIncome; ClusterDistribution].

(** A computation keeps the relation [R] when its final state is always
    [R]-related to its initial state, whatever the outcome. *)
Definition keeps (R : State -> State -> Prop) {A} (m : M A) : Prop :=
  forall env st, R st (snd (m env st)).

(** The relations the frame properties are about. *)
Definition same_store (st st' : State) : Prop := data_store st' = data_store st.

Definition store_grows (st st' : State) : Prop :=
  data_store st `prefix_of` data_store st'.

Definition same_artifacts (st st' : State) : Prop :=
  scaler st' = scaler st /\ kmeans st' = kmeans st.

End App.

(** ** Concrete artifacts, requests and environments *)

Module Sample.

Import Artifacts App.

Definition row (a i s : Q) : Features :=
  {| f_age := a; f_income := i; f_score := s |}.

(** A value no float holds: at or beyond the least integer that rounds
    above the largest finite double, in either direction. *)
Definition beyond_float (q : Q) : bool :=
  Qle_bool (inject_Z (2 ^ 1024 - 2 ^ 970)) q
  || Qle_bool q (inject_Z (- (2 ^ 1024 - 2 ^ 970))).

(** The conversion to floats refuses an array with such a value. *)
Definition float_overflow (X : list Features) : option string :=
  if existsb (fun x => beyond_float (f_age x) || beyond_float (f_income x)
                       || beyond_float (f_score x)) X
  then Some "int too large to convert to float"
  else None.

Definition scaler0 : Scaler :=
  {| center := row (3885 # 100) (6056 # 100) (502 # 10);
     scale := row (1393 # 100) (262 # 10) (2576 # 100);
     transform_raises := float_overflow |}.

Definition kmeans0 : KMeans :=
  {| first_centroid := row (- (44 # 100)) (99 # 100) (124 # 100);
     other_centroids :=
       [ row (117 # 100) (- (13 # 10)) (- (135 # 100));
         row 0 0 0;
         row (- (97 # 100)) (- (133 # 100)) (113 # 100) ];
     predict_raises := fun _ => None |}.

(** Three centroids at the same distance from the origin, after a
    farther one. *)
Definition kmeans_tie : KMeans :=
  {| first_centroid := row 2 0 0;
     other_centroids := [ row 0 1 0; row 0 0 1; row 1 0 0 ];
     predict_raises := fun _ => None |}.

Definition fresh : State :=
  {| scaler := scaler0; kmeans := kmeans0; data_store := [];
     static := ∅; stdout := []; flashes := [] |}.

Definition calm : Env :=
  {| makedirs_raises := None; plot_raises := fun _ _ => None;
     render_raises := None |}.

Definition makedirs_denied : Env :=
  {| makedirs_raises := Some "[Errno 13] Permission denied: 'static'";
     plot_raises := fun _ _ => None; render_raises := None |}.

Definition template_missing : Env :=
  {| makedirs_raises := None; plot_raises := fun _ _ => None;
     render_raises := Some "index.html" |}.

Definition disk_full : Env :=
  {| makedirs_raises := None;
     plot_raises := fun c s =>
       match c, s with
       | AgeVsIncome, Save => Some "[Errno 28] No space left on device"
       | _, _ => None
       end;
     render_raises := None |}.

Definition request (age income score : string) : gmap string string :=
  <["age" := age]> (<["income" := income]> (<["score" := score]> ∅)).

Definition one_seen : State :=
  snd (predict (request "25" "40" "60") calm fresh).

(** The numeral of ten to the power [n]: a one and [n] zeros. *)
Definition ten_to (n : nat) : string :=
  String "1" (nat_rect (fun _ => string) EmptyString (fun _ s => String "0" s) n).

Definition ten_to_400 : string := ten_to 400.

End Sample.

(** ** Vocabulary of the further properties of the pipeline *)

Module Store.
Import Artifacts App.

(** An Observation as the route builds it: raw values within the ranges
    the route checks, and the label the model of [st] gives to them. *)
Definition well_formed (st : State) (o : Observation) : Prop :=
  valid (Age o) (Income o) (Score o) /\
  Cluster o = label_of st (Age o) (Income o) (Score o) /\
  (Cluster o < n_clusters (kmeans st))%nat.

(** The number of rows of a frame that carry a label. *)
Definition count_label (l : nat) (df : list Observation) : nat :=
  length (filter (fun o => Cluster o = l) df).

(** The sum of the heights of the bars of a count plot. *)
Definition bars_total (bars : gmap nat nat) : nat :=
  map_fold (fun _ h acc => (h + acc)%nat) 0%nat bars.

#[export] Instance Chart_eq_dec : EqDecision Chart.
Proof. solve_decision. Defined.

(** *** Start of the process *)

(** What unpickling one artifact gives: the object, or the exception
    [joblib.load] raises. *)
Record ModelFiles := {
  load_kmeans : Py.Exn + KMeans;
  load_scaler : Py.Exn + Scaler
}.

(** A line printed while the module is loaded. *)
Inductive BootLine :=
| ModelsLoaded
| ErrorLoadingModels (e : Py.Exn).

(** How the load of the module ends: the process serves requests from a
    first state, or it has left with an exit status. *)
Inductive Boot :=
| Serving (st : State) (out : list BootLine)
| Exited (status : Z) (out : list BootLine).

(** The module-level [try] that loads the two artifacts, followed by
    [data_store = []].  [disk] is what [static/] holds at that time. *)
Definition load_models (files : ModelFiles) (disk : gmap string Figure) : Boot :=
  match load_kmeans files with
  | inl e => Exited 1 [ErrorLoadingModels e]
  | inr km =>
      match load_scaler files with
      | inl e => Exited 1 [ErrorLoadingModels e]
      | inr sc =>
          Serving {| scaler := sc; kmeans := km; data_store := [];
                     static := disk; stdout := []; flashes := [] |}
                  [ModelsLoaded]
      end
  end.

End Store.

(** ** Decimal numerals *)

Module Numeral.

(** [str(z)] for an integer: its decimal digits, after a minus sign when
    it is negative. *)
Definition str (z : Z) : string := NilZero.string_of_int (Z.to_int z).

(** The value of a run of decimal digits read after [acc]. *)
Fixpoint uint_value (d : Decimal.uint) (acc : Z) : Z :=
  match d with
  | Decimal.Nil => acc
  | Decimal.D0 d => uint_value d (10 * acc + 0)
  | Decimal.D1 d => uint_value d (10 * acc + 1)
  | Decimal.D2 d => uint_value d (10 * acc + 2)
  | Decimal.D3 d => uint_value d (10 * acc + 3)
  | Decimal.D4 d => uint_value d (10 * acc + 4)
  | Decimal.D5 d => uint_value d (10 * acc + 5)
  | Decimal.D6 d => uint_value d (10 * acc + 6)
  | Decimal.D7 d => uint_value d (10 * acc + 7)
  | Decimal.D8 d => uint_value d (10 * acc + 8)
  | Decimal.D9 d => uint_value d (10 * acc + 9)
  end.

(** An integer whose decimal numeral has no more digits than [int()]
    converts. *)
Definition within_limit (z : Z) : Prop := Z.abs z < 10 ^ Z.of_N Py.max_str_digits.

End Numeral.

(** ** The site around the pipeline: identity, session and the gate *)

Module Site.

Import App.

Inductive Method := GET | POST.

(** One row of the [users] table as the queries return it. *)
Record UserRow := { row_id : string; row_email : string; row_password : string }.

(** [class User(UserMixin)].  The email is what the constructor is handed:
    a column of a row in [load_user], the form field in [login]. *)
Record User := { user_id : string; user_email : option string; user_password : string }.

(** The identity services as one request meets them: what each query on
    the [users] table returns or raises, whether the insert raises, and
    what the two password functions give. *)
Record Backend := {
  select_eq_email : option string -> Py.Exn + list UserRow;
  select_eq_id : string -> Py.Exn + list UserRow;
  insert_raises : option string -> string -> option string;
  generate_password_hash : option string -> Py.Exn + string;
  check_password_hash : string -> option string -> Py.Exn + bool
}.

(** The environment of one request to the site. *)
Record Request := { env : Env; backend : Backend }.

(** A message flashed by the identity routes or by the gate, with its
    category. *)
Record Notice := { notice_text : string; notice_category : string }.

(** A line printed by the identity routes, kept as the exception it
    quotes. *)
Inductive ConsoleLine :=
| ErrorLoadingUser (e : Py.Exn)
| LoginError (e : Py.Exn)
| RegistrationError (e : Py.Exn).

(** The process and what it has done to the outside: the pipeline state,
    the user id kept in the session, the rows it asked the table to
    insert, the messages and the lines of the identity routes. *)
Record World := {
  pipeline : State;
  session : option string;
  inserted : list (option string * string);
  notices : list Notice;
  console : list ConsoleLine
}.

Definition W (A : Type) : Type := Request -> World -> Outcome A * World.

Definition w_ret {A} (a : A) : W A := fun _ w => (Return a, w).

Definition w_bind {A B} (m : W A) (k : A -> W B) : W B :=
  fun rq w =>
    match m rq w with
    | (Return a, w') => k a rq w'
    | (Raised e, w') => (Raised e, w')
    end.

Definition w_raise {A} (e : Py.Exn) : W A := fun _ w => (Raised e, w).

Definition w_try {A} (body : W A) (handler : Py.Exn -> W A) : W A :=
  fun rq w =>
    match body rq w with
    | (Return a, w') => (Return a, w')
    | (Raised e, w') => handler e rq w'
    end.

Definition w_modify (f : World -> World) : W unit := fun _ w => (Return tt, f w).
Definition w_get : W World := fun _ w => (Return w, w).
Definition w_ask : W Backend := fun rq w => (Return (backend rq), w).

#[export] Instance W_ret : MRet W := @w_ret.
#[export] Instance W_bind : MBind W := fun A B k m => w_bind m k.

Definition set_pipeline (st : State) (w : World) : World :=
  {| pipeline := st; session := session w; inserted := inserted w;
     notices := notices w; console := console w |}.

Definition set_session (s : option string) (w : World) : World :=
  {| pipeline := pipeline w; session := s; inserted := inserted w;
     notices := notices w; console := console w |}.

Definition set_inserted (rows : list (option string * string)) (w : World) : World :=
  {| pipeline := pipeline w; session := session w; inserted := rows;
     notices := notices w; console := console w |}.

Definition set_notices (ns : list Notice) (w : World) : World :=
  {| pipeline := pipeline w; session := session w; inserted := inserted w;
     notices := ns; console := console w |}.

Definition set_console (ls : list ConsoleLine) (w : World) : World :=
  {| pipeline := pipeline w; session := session w; inserted := inserted w;
     notices := notices w; console := ls |}.

(** A computation of the pipeline, run inside the site. *)
Definition lift {A} (m : M A) : W A :=
  fun rq w =>
    let '(o, st) := m (env rq) (pipeline w) in (o, set_pipeline st w).

(** What a call into a service gives. *)
Definition call {A} (result : Py.Exn + A) : W A :=
  match result with
  | inr a => mret a
  | inl e => w_raise e
  end.

(** [supabase.table('users').select('*').eq('email', email).execute().data]. *)
Definition users_by_email (email : option string) : W (list UserRow) :=
  b ← w_ask; call (select_eq_email b email).

(** [supabase.table('users').select('*').eq('id', user_id).execute().data]. *)
Definition users_by_id (uid : string) : W (list UserRow) :=
  b ← w_ask; call (select_eq_id b uid).

(** [supabase.table('users').insert({'email': ..., 'password': ...}).execute()]. *)
Definition users_insert (email : option string) (password : string) : W unit :=
  b ← w_ask;
  match insert_raises b email password with
  | Some msg => w_raise (Py.Fault msg)
  | None => w_modify (fun w => set_inserted (inserted w ++ [(email, password)]) w)
  end.

(** [flash(text)] and [flash(text, category)]; the category defaults to
    ['message']. *)
Definition flash (text category : string) : W unit :=
  w_modify (fun w =>
    set_notices (notices w ++ [{| notice_text := text; notice_category := category |}]) w).

Definition print (line : ConsoleLine) : W unit :=
  w_modify (fun w => set_console (console w ++ [line]) w).

(** [login_user(user)]: the session remembers the user's id. *)
Definition login_user (u : User) : W unit :=
  w_modify (set_session (Some (user_id u))).

(** [logout_user()]. *)
Definition logout_user : W unit := w_modify (set_session None).

Definition redirect (endpoint : string) : W Response := mret (Redirect endpoint).

(** [render_template(name)]. *)
Definition render_template (name : string) : W Response :=
  lift (App.render_template name None None).

(** The [user_loader] callback. *)
Definition load_user (uid : string) : W (option User) :=
  w_try
    (rows ← users_by_id uid;
     match rows with
     | user_data :: _ =>
         mret (Some {| user_id := row_id user_data;
                       user_email := Some (row_email user_data);
                       user_password := row_password user_data |})
     | [] => mret None
     end)
    (fun e => print (ErrorLoadingUser e);; mret None).

(** What the login manager does with a request it does not let through:
    its default message, then the redirect to the [login_view]. *)
Definition unauthorized : W Response :=
  flash "Please log in to access this page." "message";; redirect "login".

(** [@login_required]: the view runs when the session names a user that
    [load_user] finds. *)
Definition login_required (view : W Response) : W Response :=
  w ← w_get;
  match session w with
  | None => unauthorized
  | Some uid =>
      u ← load_user uid;
      match u with
      | Some _ => view
      | None => unauthorized
      end
  end.

(** [/], [/about], [/contact]. *)
Definition home : W Response := render_template "home.html".
Definition about : W Response := render_template "about.html".
Definition contact : W Response := render_template "contact.html".

(** [/dashboard]. *)
Definition dashboard : W Response := login_required (lift App.dashboard).

(** [/predict]. *)
Definition predict (form : gmap string string) : W Response :=
  login_required (lift (App.predict form)).

(** [/logout]. *)
Definition logout : W Response :=
  login_required (logout_user;; redirect "home").

(** [/login].  The [try] either returns a response or falls through to
    the template. *)
Definition login (method : Method) (form : gmap string string) : W Response :=
  returned ←
    match method with
    | POST =>
        let email := form !! "email" in
        let password := form !! "password" in
        w_try
          (data ← users_by_email email;
           ok ← match data with
                | [] => mret false
                | row :: _ => b ← w_ask; call (check_password_hash b (row_password row) password)
                end;
           match data, ok with
           | row :: _, true =>
               let user := {| user_id := row_id row; user_email := email;
                              user_password := row_password row |} in
               login_user user;;
               r ← redirect "dashboard"; mret (Some r)
           | _, _ => flash "Invalid email or password" "message";; mret None
           end)
          (fun e => flash "Error during login" "message";;
                    print (LoginError e);; mret None)
    | GET => mret None
    end;
  match returned with
  | Some r => mret r
  | None => render_template "login.html"
  end.

(** [/register]. *)
Definition register (method : Method) (form : gmap string string) : W Response :=
  returned ←
    match method with
    | POST =>
        let email := form !! "email" in
        let password := form !! "password" in
        w_try
          (data ← users_by_email email;
           match data with
           | _ :: _ =>
               flash "Email already registered" "message";;
               r ← redirect "register"; mret (Some r)
           | [] =>
               b ← w_ask;
               hashed_password ← call (generate_password_hash b password);
               users_insert email hashed_password;;
               flash "Registration successful! Please login." "message";;
               r ← redirect "login"; mret (Some r)
           end)
          (fun e => flash "Error during registration" "message";;
                    print (RegistrationError e);; mret None)
    | GET => mret None
    end;
  match returned with
  | Some r => mret r
  | None => render_template "register.html"
  end.

(** *** Vocabulary of the properties of the site *)

(** The state after the gate turned a request away. *)
Definition turned_away (w : World) : World :=
  set_notices (notices w ++ [{| notice_text := "Please log in to access this page.";
                                notice_category := "message" |}]) w.

(** The session of [w] names no user that [load_user] finds in [rq]. *)
Definition anonymous (rq : Request) (w : World) : Prop :=
  match session w with
  | None => True
  | Some uid =>
      match select_eq_id (backend rq) uid with
      | inr (_ :: _) => False
      | inr [] | inl _ => True
      end
  end.

Definition authenticated (rq : Request) (w : World) : Prop :=
  exists uid row rows,
    session w = Some uid /\ select_eq_id (backend rq) uid = inr (row :: rows).

(** Two worlds with the same pipeline state, session and inserted rows:
    they differ at most in messages and printed lines. *)
Definition untouched (w w' : World) : Prop :=
  pipeline w' = pipeline w /\ session w' = session w /\ inserted w' = inserted w.

(** The state after an identity route flashed [text] in the default
    category. *)
Definition noticed (text : string) (w : World) : World :=
  set_notices (notices w ++ [{| notice_text := text; notice_category := "message" |}]) w.

Definition printed (line : ConsoleLine) (w : World) : World :=
  set_console (console w ++ [line]) w.

(** What the [try] of [/register] does on a POST: the response it returns
    early, if any, and the state it leaves. *)
Definition register_try (form : gmap string string) (rq : Request) (w : World)
  : option Response * World :=
  let email := form !! "email" in
  let password := form !! "password" in
  let failed e := (None, printed (RegistrationError e) (noticed "Error during registration" w)) in
  match select_eq_email (backend rq) email with
  | inl e => failed e
  | inr (_ :: _) => (Some (Redirect "register"), noticed "Email already registered" w)
  | inr [] =>
      match generate_password_hash (backend rq) password with
      | inl e => failed e
      | inr h =>
          match insert_raises (backend rq) email h with
          | Some msg => failed (Py.Fault msg)
          | None =>
              (Some (Redirect "login"),
               noticed "Registration successful! Please login."
                 (set_inserted (inserted w ++ [(email, h)]) w))
          end
      end
  end.

(** What the [try] of [/login] does on a POST. *)
Definition login_try (form : gmap string string) (rq : Request) (w : World)
  : option Response * World :=
  let email := form !! "email" in
  let password := form !! "password" in
  let failed e := (None, printed (LoginError e) (noticed "Error during login" w)) in
  match select_eq_email (backend rq) email with
  | inl e => failed e
  | inr [] => (None, noticed "Invalid email or password" w)
  | inr (row :: _) =>
      match check_password_hash (backend rq) (row_password row) password with
      | inl e => failed e
      | inr true => (Some (Redirect "dashboard"), set_session (Some (row_id row)) w)
      | inr false => (None, noticed "Invalid email or password" w)
      end
  end.

(** The end of both routes: the early response, or the template. *)
Definition finish (name : string) (r : option Response * World) (rq : Request)
  : Outcome Response * World :=
  match r with
  | (Some resp, w) => (Return resp, w)
  | (None, w) =>
      match render_raises (env rq) with
      | Some msg => (Raised (Py.Fault msg), w)
      | None => (Return (Rendered name None None), w)
      end
  end.

End Site.

(** ** Concrete users, tables and visitors *)

Module SiteSample.

Import App Site.

Definition hash_of (password : option string) : Py.Exn + string :=
  match password with
  | Some p => inr ("hashed:" +:+ p)
  | None => inl (Py.Fault "'NoneType' object has no attribute 'encode'")
  end.

Definition check_of (h : string) (password : option string) : Py.Exn + bool :=
  match password with
  | Some p => inr (String.eqb h ("hashed:" +:+ p))
  | None => inl (Py.Fault "'NoneType' object has no attribute 'encode'")
  end.

Definition alice : UserRow :=
  {| row_id := "7"; row_email := "alice@example.com";
     row_password := "hashed:secret" |}.

(** A table that holds nobody. *)
Definition nobody : Backend :=
  {| select_eq_email := fun _ => inr [];
     select_eq_id := fun _ => inr [];
     insert_raises := fun _ _ => None;
     generate_password_hash := hash_of;
     check_password_hash := check_of |}.

(** A table that holds alice. *)
Definition with_alice : Backend :=
  {| select_eq_email := fun email =>
       match email with
       | Some e => inr (if String.eqb e "alice@example.com" then [alice] else [])
       | None => inr []
       end;
     select_eq_id := fun uid => inr (if String.eqb uid "7" then [alice] else []);
     insert_raises := fun _ _ => None;
     generate_password_hash := hash_of;
     check_password_hash := check_of |}.

(** A table that cannot be reached. *)
Definition unreachable : Backend :=
  {| select_eq_email := fun _ => inl (Py.Fault "connection refused");
     select_eq_id := fun _ => inl (Py.Fault "connection refused");
     insert_raises := fun _ _ => Some "connection refused";
     generate_password_hash := hash_of;
     check_password_hash := check_of |}.

Definition quiet (b : Backend) : Request := {| env := Sample.calm; backend := b |}.

Definition visitor : World :=
  {| pipeline := Sample.fresh; session := None; inserted := [];
     notices := []; console := [] |}.

Definition alice_in : World :=
  {| pipeline := Sample.fresh; session := Some "7"; inserted := [];
     notices := []; console := [] |}.

Definition signup : gmap string string :=
  <["email" := "alice@example.com"]> (<["password" := "secret"]> ∅).

Definition files0 : Store.ModelFiles :=
  {| Store.load_kmeans := inr Sample.kmeans0; Store.load_scaler := inr Sample.scaler0 |}.

End SiteSample.

(** ** Integer literals *)

Section Literals.

Import Py.

Lemma literal_space a : is_space a = true -> literal_char a = true.
Proof. unfold literal_char. intros ->. reflexivity. Qed.

Lemma literal_digit a : is_digit a = true -> literal_char a = true.
Proof. unfold literal_char. intros ->. btauto. Qed.

Lemma forall_chars_skip_space s :
  forall_chars literal_char (skip_space s) = true ->
  forall_chars literal_char s = true.
Proof.
  induction s as [| a s IH]; simpl; [trivial |].
  destruct (is_space a) eqn:E; [| trivial].
  intros H. rewrite (literal_space a E), (IH H). reflexivity.
Qed.

Lemma exists_char_skip_space p s :
  exists_char p (skip_space s) = true -> exists_char p s = true.
Proof.
  induction s as [| a s IH]; simpl; [trivial |].
  destruct (is_space a); [| trivial].
  intros H. rewrite (IH H). apply orb_true_r.
Qed.

Lemma scan_digits_chars s : forall acc us z rest,
  scan_digits s acc us = Some (z, rest) ->
  forall_chars literal_char rest = true ->
  forall_chars literal_char s = true.
Proof.
  induction s as [| a s IH]; intros acc us z rest; simpl.
  - trivial.
  - destruct (is_digit a) eqn:Ed.
    + intros H Hr. rewrite (literal_digit a Ed). simpl. eauto.
    + destruct (is_underscore a) eqn:Eu.
      * destruct us; [discriminate |]. intros H Hr.
        assert (literal_char a = true) as -> by (unfold literal_char; rewrite Eu; btauto).
        simpl. eauto.
      * destruct us; [discriminate |]. intros [= _ <-]. trivial.
Qed.

(** A digit run followed by whitespace only is numeric. *)
Lemma digit_run_numeric a s n rest :
  is_digit a = true -> scan_digits (String a s) 0 false = Some (n, rest) ->
  skip_space rest = EmptyString -> numeric (String a s) = true.
Proof.
  intros Hd Hs Hr. unfold numeric. apply andb_true_iff. split.
  - eapply scan_digits_chars; [exact Hs |].
    apply forall_chars_skip_space. rewrite Hr. reflexivity.
  - simpl. rewrite Hd. reflexivity.
Qed.

(** Whatever [int()] accepts is numeric: a string that is not raises. *)
Lemma int_of_string_numeric s z : int_of_string s = Some z -> numeric s = true.
Proof.
  unfold int_of_string.
  assert (numeric (skip_space s) = true -> numeric s = true) as Hskip.
  { unfold numeric. rewrite !andb_true_iff. intros [H1 H2].
    split; [apply forall_chars_skip_space | apply exists_char_skip_space]; assumption. }
  intros H. apply Hskip. clear Hskip.
  destruct (skip_space s) as [| a r]; [discriminate |].
  assert (forall (neg : bool) (s2 : string),
    match s2 with
    | String a _ =>
        if is_digit a then
          match scan_digits s2 0 false with
          | Some (n, rest) =>
              if (max_str_digits <? count_digits s2)%N then None
              else
                match skip_space rest with
                | EmptyString => Some (if neg then - n else n)
                | String _ _ => None
                end
          | None => None
          end
        else None
    | EmptyString => None
    end = Some z -> numeric s2 = true) as Hbody.
  { intros neg s2 Hs2.
    destruct s2 as [| b s2]; [discriminate |].
    destruct (is_digit b) eqn:Ed; [| discriminate].
    destruct (scan_digits (String b s2) 0 false) as [[n rest] |] eqn:Es; [| discriminate].
    destruct (max_str_digits <? count_digits (String b s2))%N; [discriminate |].
    destruct (skip_space rest) eqn:Er; [| discriminate].
    eapply digit_run_numeric; eassumption. }
  destruct (is_minus a) eqn:Em; [| destruct (is_plus a) eqn:Ep].
  - apply (Hbody true r) in H. unfold numeric in *. simpl.
    apply andb_true_iff in H as [H1 H2].
    unfold literal_char at 1. rewrite Em, H1, H2. btauto.
  - apply (Hbody false r) in H. unfold numeric in *. simpl.
    apply andb_true_iff in H as [H1 H2].
    unfold literal_char at 1. rewrite Ep, H1, H2. btauto.
  - apply (Hbody false (String a r)) in H. exact H.
Qed.

Lemma int_error_is_ValueError s : is_ValueError (int_error s) = true.
Proof. unfold int_error. destruct (over_limit s); reflexivity. Qed.

Lemma int_rejects_text s : numeric s = false -> int_of_string s = None.
Proof.
  intros H. destruct (int_of_string s) as [z |] eqn:E; [| reflexivity].
  apply int_of_string_numeric in E. congruence.
Qed.

End Literals.

(** ** Nearest-centroid assignment *)

Section Assignment.

Import Artifacts.
Import Stdlib.Reals.Rdefinitions.
Local Open Scope Q_scope.

Lemma Qlt_bool_true a b : Qlt_bool a b = true <-> a < b.
Proof.
  unfold Qlt_bool. rewrite Qlt_alt.
  destruct (a ?= b); split; congruence.
Qed.

Lemma Qlt_bool_false a b : Qlt_bool a b = false <-> b <= a.
Proof.
  split; intros H.
  - destruct (Qlt_le_dec a b) as [Hlt | Hle]; [| exact Hle].
    apply Qlt_bool_true in Hlt. congruence.
  - destruct (Qlt_bool a b) eqn:E; [| reflexivity].
    apply Qlt_bool_true in E. exfalso. exact (Qlt_not_le _ _ E H).
Qed.

Lemma Qsquare_nonneg (a : Q) : 0 <= a * a.
Proof. exact (Qpower.Qsqr_nonneg a). Qed.

Lemma sqdist_nonneg x c : 0 <= sqdist x c.
Proof.
  unfold sqdist.
  pose proof (Qsquare_nonneg (f_age x - f_age c)).
  pose proof (Qsquare_nonneg (f_income x - f_income c)).
  pose proof (Qsquare_nonneg (f_score x - f_score c)).
  lra.
Qed.

(** The squared distance does not tell rows with equal columns apart. *)
Lemma sqdist_Feq x x' c : Feq x x' -> sqdist x c == sqdist x' c.
Proof.
  intros (Ha & Hi & Hs). unfold sqdist. rewrite Ha, Hi, Hs. reflexivity.
Qed.

Lemma Qlt_bool_Qeq a a' b b' : a == a' -> b == b' -> Qlt_bool a b = Qlt_bool a' b'.
Proof.
  intros Ha Hb. unfold Qlt_bool. rewrite Ha, Hb. reflexivity.
Qed.

Lemma argmin_from_Feq x x' cs : Feq x x' ->
  forall i best d d', d == d' ->
    argmin_from x cs i best d = argmin_from x' cs i best d'.
Proof.
  intros Hx. induction cs as [| c cs IH]; intros i best d d' Hd; simpl.
  - reflexivity.
  - rewrite (Qlt_bool_Qeq _ (sqdist x' c) _ d' (sqdist_Feq x x' c Hx) Hd).
    destruct (Qlt_bool (sqdist x' c) d').
    + apply IH, sqdist_Feq, Hx.
    + apply IH, Hd.
Qed.

Lemma kept_skip x pre best d c :
  kept x pre best d -> d <= sqdist x c -> kept x (pre ++ [c]) best d.
Proof.
  intros [(cb & Hcb & Hd) Hleast Hfirst] Hle.
  pose proof (lookup_lt_Some _ _ _ Hcb) as Hlt.
  split.
  - exists cb. split; [| exact Hd]. rewrite lookup_app_l; assumption.
  - intros j c' Hj. apply lookup_app_Some in Hj as [Hj | [_ Hj]].
    + eauto.
    + apply list_lookup_singleton_Some in Hj as [_ <-]. exact Hle.
  - intros j c' Hjb Hj. rewrite lookup_app_l in Hj by lia. eauto.
Qed.

Lemma kept_take x pre best d c :
  kept x pre best d -> sqdist x c < d ->
  kept x (pre ++ [c]) (length pre) (sqdist x c).
Proof.
  intros [_ Hleast _] Hlt.
  split.
  - exists c. split; [| reflexivity].
    rewrite lookup_app_r by lia. by rewrite Nat.sub_diag.
  - intros j c' Hj. apply lookup_app_Some in Hj as [Hj | [_ Hj]].
    + apply Qlt_le_weak. eapply Qlt_le_trans; [exact Hlt | eauto].
    + apply list_lookup_singleton_Some in Hj as [_ <-]. apply Qle_refl.
  - intros j c' Hjb Hj. rewrite lookup_app_l in Hj by lia.
    eapply Qlt_le_trans; [exact Hlt | eauto].
Qed.

Lemma argmin_from_kept x cs : forall pre best d,
  kept x pre best d ->
  exists d', kept x (pre ++ cs) (argmin_from x cs (length pre) best d) d'.
Proof.
  induction cs as [| c cs IH]; intros pre best d Hk; simpl.
  - exists d. by rewrite app_nil_r.
  - destruct (Qlt_bool (sqdist x c) d) eqn:E.
    + apply Qlt_bool_true in E.
      destruct (IH (pre ++ [c]) (length pre) (sqdist x c)) as [d' Hd'].
      { eapply kept_take; eauto. }
      exists d'. rewrite length_app in Hd'. simpl in Hd'.
      rewrite Nat.add_1_r in Hd'. by rewrite <- app_assoc in Hd'.
    + apply Qlt_bool_false in E.
      destruct (IH (pre ++ [c]) best d) as [d' Hd'].
      { eapply kept_skip; eauto. }
      exists d'. rewrite length_app in Hd'. simpl in Hd'.
      rewrite Nat.add_1_r in Hd'. by rewrite <- app_assoc in Hd'.
Qed.

Lemma assign_kept km x :
  exists d, kept x (cluster_centers km) (assign km x) d.
Proof.
  unfold assign, cluster_centers.
  apply (argmin_from_kept x (other_centroids km) [first_centroid km] 0%nat).
  split.
  - exists (first_centroid km). split; reflexivity.
  - intros [| j] c Hj; simpl in Hj; [| by rewrite lookup_nil in Hj].
    injection Hj as <-. apply Qle_refl.
  - intros j c Hj. lia.
Qed.

Lemma assign_in_range km x : (assign km x < n_clusters km)%nat.
Proof.
  destruct (assign_kept km x) as [d [(cl & Hcl & _) _ _]].
  unfold n_clusters. eapply lookup_lt_Some, Hcl.
Qed.

(** From squared distances to distances: the square root is monotone. *)
Lemma Q2R_nonneg (q : Q) : 0 <= q -> (0 <= Q2R q)%R.
Proof.
  intros H. apply Qreals.Qle_Rle in H.
  replace (Q2R 0) with 0%R in H; [exact H |].
  unfold Q2R. simpl. Lra.lra.
Qed.

Lemma euclidean_le x c c' :
  sqdist x c <= sqdist x c' -> (euclidean x c <= euclidean x c')%R.
Proof.
  intros H. unfold euclidean.
  apply R_sqrt.sqrt_le_1; try apply Q2R_nonneg, sqdist_nonneg.
  apply Qreals.Qle_Rle, H.
Qed.

Lemma euclidean_lt x c c' :
  sqdist x c < sqdist x c' -> (euclidean x c < euclidean x c')%R.
Proof.
  intros H. unfold euclidean.
  apply R_sqrt.sqrt_lt_1; try apply Q2R_nonneg, sqdist_nonneg.
  apply Qreals.Qlt_Rlt, H.
Qed.

(** C3.  Cluster assignment is the nearest-centroid rule: the label given
    to a normalized row is the index of a centroid of the model, no
    centroid is nearer to the row in Euclidean distance, every centroid of
    a lower index is strictly farther (so among equidistant centroids the
    lowest index wins), and rows with equal columns get the same label. *)
Theorem assign_nearest_centroid (km : KMeans) (x : Features) :
  (assign km x < n_clusters km)%nat /\
  (exists cl, cluster_centers km !! assign km x = Some cl /\
     (forall j c, cluster_centers km !! j = Some c ->
        (euclidean x cl <= euclidean x c)%R) /\
     (forall j c, (j < assign km x)%nat -> cluster_centers km !! j = Some c ->
        (euclidean x cl < euclidean x c)%R)) /\
  (forall x', Feq x x' -> assign km x' = assign km x).
Proof.
  destruct (assign_kept km x) as [d [(cl & Hcl & Hd) Hleast Hfirst]].
  split; [| split].
  - unfold n_clusters. eapply lookup_lt_Some, Hcl.
  - exists cl. split; [exact Hcl |]. split.
    + intros j c Hj. apply euclidean_le. rewrite Hd. eauto.
    + intros j c Hlt Hj. apply euclidean_lt. rewrite Hd. eauto.
  - intros x' Hx. symmetry. unfold assign.
    apply argmin_from_Feq; [exact Hx |]. apply sqdist_Feq, Hx.
Qed.
End Assignment.

(** ** Frame rules of the route monad *)

Section Frames.

Import App.

Variable R : State -> State -> Prop.
Hypothesis R_refl : forall st, R st st.
Hypothesis R_trans : forall st1 st2 st3, R st1 st2 -> R st2 st3 -> R st1 st3.

Lemma keeps_ret {A} (a : A) : keeps R (mret a).
Proof. intros env st. apply R_refl. Qed.

Lemma keeps_raise {A} e : keeps R (@raise A e).
Proof. intros env st. apply R_refl. Qed.

Lemma keeps_get : keeps R get.
Proof. intros env st. apply R_refl. Qed.

Lemma keeps_ask : keeps R ask.
Proof. intros env st. apply R_refl. Qed.

Lemma keeps_modify f : (forall st, R st (f st)) -> keeps R (modify f).
Proof. intros H env st. apply H. Qed.

Lemma keeps_bind {A B} (m : M A) (k : A -> M B) :
  keeps R m -> (forall a, keeps R (k a)) -> keeps R (m ≫= k).
Proof.
  intros Hm Hk env st. specialize (Hm env st).
  unfold mbind, M_bind, bind. destruct (m env st) as [[a | e] st']; simpl in *.
  - eapply R_trans; [exact Hm | apply Hk].
  - exact Hm.
Qed.

Lemma keeps_try {A} (m : M A) (h : Py.Exn -> M A) :
  keeps R m -> (forall e, keeps R (h e)) -> keeps R (try_except m h).
Proof.
  intros Hm Hh env st. specialize (Hm env st).
  unfold try_except. destruct (m env st) as [[a | e] st']; simpl in *.
  - exact Hm.
  - eapply R_trans; [exact Hm | apply Hh].
Qed.

Lemma keeps_may_raise fault : keeps R (may_raise fault).
Proof. destruct fault; [apply keeps_raise | apply keeps_ret]. Qed.

End Frames.

(** ** The generator and the route in closed form *)

Section Generator.

Import App.

Lemma chart_block_run c df images env st :
  chart_block c df images env st =
  match plot_raises env c Draw with
  | Some msg => (Raised (Py.Fault msg), st)
  | None =>
      match plot_raises env c Save with
      | Some msg => (Raised (Py.Fault msg), st)
      | None =>
          match plot_raises env c Close with
          | Some msg => (Raised (Py.Fault msg), save [c] df st)
          | None => (Return (<[chart_key c := chart_file c]> images), save [c] df st)
          end
      end
  end.
Proof.
  unfold chart_block, plt, mbind, M_bind, bind, ask, may_raise, modify, mret, M_ret, ret, raise.
  destruct (plot_raises env c Draw); [reflexivity |].
  destruct (plot_raises env c Save); [reflexivity |].
  destruct (plot_raises env c Close); reflexivity.
Qed.

Lemma save_nil df st : save [] df st = st.
Proof. destruct st; reflexivity. Qed.

Lemma four_charts_built :
  <[chart_key ClusterDistribution := chart_file ClusterDistribution]>
    (<[chart_key AgeVsIncome := chart_file AgeVsIncome]>
       (<[chart_key AgeVsScore := chart_file AgeVsScore]>
          (<[chart_key IncomeVsScore := chart_file IncomeVsScore]> ∅)))
  = four_charts.
Proof. vm_compute. reflexivity. Qed.

(** What the generator does, read off the first call that raises. *)
Lemma generate_visualizations_run env st :
  generate_visualizations env st =
  match data_store st with
  | [] => (Return None, st)
  | _ :: _ =>
      match first_fault env with
      | None => (Return (Some four_charts), save all_charts (data_store st) st)
      | Some (c, s, msg) =>
          (Return None, logged (Py.Fault msg) (save (saved_before c s) (data_store st) st))
      end
  end.
Proof.
  unfold generate_visualizations.
  unfold mbind at 1. unfold M_bind, bind, get.
  destruct (data_store st) as [| o os] eqn:Hds; [reflexivity |].
  rewrite <- Hds. clear Hds o os.
  unfold try_except, first_fault. simpl first_fault_in.
  unfold mbind, M_bind, bind.
  rewrite chart_block_run.
  repeat match goal with
  | |- context [plot_raises env ?c ?s] =>
      destruct (plot_raises env c s); [ try rewrite save_nil; reflexivity |];
      try rewrite chart_block_run
  end.
  rewrite four_charts_built. reflexivity.
Qed.
End Generator.

Section Route.

Import Artifacts App.

Lemma field_int form key z :
  field form key = Some z -> Py.int (form_get form key (Py.Int 0)) = inr z.
Proof.
  unfold field. destruct (Py.int _); intros H; congruence.
Qed.

Lemma in_range_valid age income score :
  in_range age income score = true <-> valid age income score.
Proof.
  unfold in_range, valid, Py.all. simpl.
  rewrite !andb_true_iff, !Z.gtb_gt, Z.ltb_lt, Z.leb_le. intuition lia.
Qed.

Lemma validation_error_is_ValueError form e :
  validation_error form = Some e -> Py.is_ValueError e = true.
Proof.
  unfold validation_error, Py.int, form_get.
  repeat match goal with
  | |- context [form !! ?k] => destruct (form !! k)
  | |- context [Py.int_of_string ?v] => destruct (Py.int_of_string v)
  | |- context [in_range ?a ?i ?s] => destruct (in_range a i s)
  end; intros H; inversion H; try reflexivity; apply int_error_is_ValueError.
Qed.

Lemma validation_error_valid form age income score :
  reads form age income score -> valid age income score ->
  validation_error form = None.
Proof.
  intros (Ha & Hi & Hs) Hv. unfold validation_error.
  rewrite (field_int _ _ _ Ha), (field_int _ _ _ Hi), (field_int _ _ _ Hs).
  apply in_range_valid in Hv. rewrite Hv. reflexivity.
Qed.

Lemma validation_error_invalid form :
  invalid form -> exists e, validation_error form = Some e.
Proof.
  intros H. destruct (validation_error form) as [e |] eqn:E; [eauto |].
  exfalso. unfold validation_error in E.
  destruct (Py.int (form_get form "age" (Py.Int 0))) as [| age] eqn:Ea; [discriminate |].
  destruct (Py.int (form_get form "income" (Py.Int 0))) as [| income] eqn:Ei; [discriminate |].
  destruct (Py.int (form_get form "score" (Py.Int 0))) as [| score] eqn:Es; [discriminate |].
  destruct (in_range age income score) eqn:Er; [| discriminate].
  apply in_range_valid in Er. destruct Er as (? & ? & ?).
  destruct H as [key v Hkey Hv Htxt | key v Hkey Hv Hlit | a i s (Ha & Hi & Hs) Hout];
    [apply int_rejects_text in Htxt; rename Htxt into Hlit | |].
  - assert (Py.int (form_get form key (Py.Int 0)) = inl (Py.int_error v)) as Hk.
    { unfold form_get. rewrite Hv. simpl. rewrite Hlit. reflexivity. }
    unfold fields in Hkey. set_unfold.
    destruct Hkey as [-> | [-> | [-> | []]]]; congruence.
  - assert (Py.int (form_get form key (Py.Int 0)) = inl (Py.int_error v)) as Hk.
    { unfold form_get. rewrite Hv. simpl. rewrite Hlit. reflexivity. }
    unfold fields in Hkey. set_unfold.
    destruct Hkey as [-> | [-> | [-> | []]]]; congruence.
  - apply field_int in Ha, Hi, Hs.
    assert (a = age) by congruence. assert (i = income) by congruence.
    assert (s = score) by congruence. lia.
Qed.

(** A request stopped by validation: one flash, one redirect, nothing else. *)
Lemma predict_rejected form e env st :
  validation_error form = Some e ->
  predict form env st = (Return (Redirect "dashboard"), flashed e st).
Proof.
  unfold validation_error, predict, try_except, py_int.
  unfold mbind, M_bind, bind.
  destruct (Py.int (form_get form "age" (Py.Int 0))) as [ea | age].
  { intros [= <-]. reflexivity. }
  destruct (Py.int (form_get form "income" (Py.Int 0))) as [ei | income].
  { intros [= <-]. reflexivity. }
  destruct (Py.int (form_get form "score" (Py.Int 0))) as [es | score].
  { intros [= <-]. reflexivity. }
  simpl. destruct (in_range age income score); [discriminate |].
  intros [= <-]. reflexivity.
Qed.

Lemma assignment_error_None st age income score :
  assignment_error st age income score = None ->
  transform_raises (scaler st) (np_array age income score) = None /\
  predict_raises (kmeans st) (Artifacts.transform (scaler st) (np_array age income score)) = None.
Proof.
  unfold assignment_error.
  destruct (transform_raises _ _); [discriminate |].
  destruct (predict_raises _ _); [discriminate |]. auto.
Qed.

(** A request that passes validation and that the artifacts label: the
    Observation is stored, then the directory, the charts and the template
    follow. *)
Lemma predict_accepted form age income score env st :
  reads form age income score -> valid age income score ->
  assignment_error st age income score = None ->
  predict form env st =
  let st1 := appended (observation st age income score) st in
  match makedirs_raises env with
  | Some msg => (Return (Redirect "dashboard"), flashed (Py.Fault msg) st1)
  | None =>
      match generate_visualizations env st1 with
      | (Return images, st2) =>
          match render_raises env with
          | Some msg => (Return (Redirect "dashboard"), flashed (Py.Fault msg) st2)
          | None =>
              (Return (Rendered "index.html"
                         (Some (summary (label_of st age income score))) images), st2)
          end
      | (Raised e, st2) => (Return (Redirect "dashboard"), flashed e st2)
      end
  end.
Proof.
  intros (Ha & Hi & Hs) Hv Hok. apply in_range_valid in Hv.
  apply assignment_error_None in Hok as [Ht Hp].
  unfold predict, try_except, py_int.
  unfold mbind at 1 2 3 4 5 6 7 8 9 10 11. unfold M_bind, bind.
  rewrite (field_int _ _ _ Ha). cbn [mret M_ret ret].
  rewrite (field_int _ _ _ Hi). cbn [mret M_ret ret].
  rewrite (field_int _ _ _ Hs). cbn [mret M_ret ret].
  rewrite Hv. cbn [negb mret M_ret ret].
  unfold scaler_transform, kmeans_predict, mbind, M_bind, bind, get.
  rewrite Ht. cbn [mret M_ret ret]. rewrite Hp. simpl.
  unfold os_makedirs, mbind, M_bind, bind, ask. simpl.
  destruct (makedirs_raises env); simpl; [reflexivity |].
  fold (label_of st age income score).
  fold (observation st age income score).
  fold (appended (observation st age income score) st).
  destruct (generate_visualizations env _) as [[images | e] st2]; [| reflexivity].
  unfold render_template, mbind, M_bind, bind, ask. simpl.
  destruct (render_raises env); reflexivity.
Qed.

(** A request that passes validation and that an artifact refuses: one
    flash, one redirect, nothing else, as for a request stopped by
    validation. *)
Lemma predict_refused form age income score e env st :
  reads form age income score -> valid age income score ->
  assignment_error st age income score = Some e ->
  predict form env st = (Return (Redirect "dashboard"), flashed e st).
Proof.
  intros (Ha & Hi & Hs) Hv Herr. apply in_range_valid in Hv.
  unfold assignment_error in Herr.
  unfold predict, try_except, py_int.
  unfold mbind at 1 2 3 4 5 6 7 8 9 10 11. unfold M_bind, bind.
  rewrite (field_int _ _ _ Ha). cbn [mret M_ret ret].
  rewrite (field_int _ _ _ Hi). cbn [mret M_ret ret].
  rewrite (field_int _ _ _ Hs). cbn [mret M_ret ret].
  rewrite Hv. cbn [negb mret M_ret ret].
  unfold scaler_transform, kmeans_predict, mbind, M_bind, bind, get.
  destruct (transform_raises (scaler st) (np_array age income score)) as [msg |].
  { injection Herr as <-. reflexivity. }
  cbn [mret M_ret ret].
  destruct (predict_raises (kmeans st) _) as [msg |]; [| discriminate].
  injection Herr as <-. reflexivity.
Qed.

(** The three ways a request can go before the append. *)
Lemma predict_cases form st :
  (exists e, validation_error form = Some e) \/
  (exists age income score e,
     reads form age income score /\ valid age income score /\
     validation_error form = None /\ assignment_error st age income score = Some e) \/
  (exists age income score,
     reads form age income score /\ valid age income score /\
     validation_error form = None /\ assignment_error st age income score = None).
Proof.
  destruct (validation_error form) as [e |] eqn:E; [left; eauto | right].
  unfold validation_error in E. unfold reads, field.
  destruct (Py.int (form_get form "age" (Py.Int 0))) as [| age]; [discriminate |].
  destruct (Py.int (form_get form "income" (Py.Int 0))) as [| income]; [discriminate |].
  destruct (Py.int (form_get form "score" (Py.Int 0))) as [| score]; [discriminate |].
  destruct (in_range age income score) eqn:Er; [| discriminate].
  apply in_range_valid in Er.
  destruct (assignment_error st age income score) as [e |] eqn:Ea.
  - left. exists age, income, score, e. auto.
  - right. exists age, income, score. auto.
Qed.

End Route.

(** ** What each operation leaves alone *)

Section Preservation.

Import App.

(** Walks a route body with the frame rules; what is left are the state
    updates, each to be allowed by the relation. *)
Ltac frame refl trans :=
  repeat first
    [ apply (keeps_try _ trans)
    | apply (keeps_bind _ trans)
    | apply (keeps_ret _ refl)
    | apply (keeps_raise _ refl)
    | apply (keeps_get _ refl)
    | apply (keeps_ask _ refl)
    | apply (keeps_may_raise _ refl)
    | apply keeps_modify
    | match goal with
      | |- keeps _ (match ?x with _ => _ end) => destruct x
      | |- keeps _ (if ?b then _ else _) => destruct b
      end
    | intro ].

Lemma same_store_refl st : same_store st st.
Proof. reflexivity. Qed.

Lemma same_store_trans st1 st2 st3 :
  same_store st1 st2 -> same_store st2 st3 -> same_store st1 st3.
Proof. unfold same_store. congruence. Qed.

Lemma same_artifacts_refl st : same_artifacts st st.
Proof. split; reflexivity. Qed.

Lemma same_artifacts_trans st1 st2 st3 :
  same_artifacts st1 st2 -> same_artifacts st2 st3 -> same_artifacts st1 st3.
Proof. unfold same_artifacts. intros [-> ->] [-> ->]. split; reflexivity. Qed.

Lemma store_grows_refl st : store_grows st st.
Proof. unfold store_grows. reflexivity. Qed.

Lemma store_grows_trans st1 st2 st3 :
  store_grows st1 st2 -> store_grows st2 st3 -> store_grows st1 st3.
Proof. unfold store_grows. intros H1 H2. etransitivity; eassumption. Qed.

Lemma generate_visualizations_same_store : keeps same_store generate_visualizations.
Proof.
  unfold generate_visualizations, chart_block, plt, print.
  frame same_store_refl same_store_trans; reflexivity.
Qed.

Lemma generate_visualizations_same_artifacts :
  keeps same_artifacts generate_visualizations.
Proof.
  unfold generate_visualizations, chart_block, plt, print.
  frame same_artifacts_refl same_artifacts_trans; split; reflexivity.
Qed.

Lemma predict_same_artifacts form : keeps same_artifacts (predict form).
Proof.
  unfold predict, py_int, scaler_transform, kmeans_predict, index0,
    data_store_append, os_makedirs, render_template, flash, redirect.
  frame same_artifacts_refl same_artifacts_trans;
    split; reflexivity.
Qed.

Lemma predict_store_grows form : keeps store_grows (predict form).
Proof.
  unfold predict, py_int, scaler_transform, kmeans_predict, index0,
    data_store_append, os_makedirs, render_template, flash, redirect.
  frame store_grows_refl store_grows_trans;
    solve [ unfold store_grows; simpl; reflexivity
          | unfold store_grows; simpl; apply prefix_app_r; reflexivity ].
Qed.

Lemma dashboard_unchanged env st : snd (dashboard env st) = st.
Proof.
  unfold dashboard, render_template, mbind, M_bind, bind, ask, may_raise. simpl.
  destruct (render_raises env); reflexivity.
Qed.

End Preservation.

(** ** The properties of the pipeline *)

Section Pipeline.

Import Artifacts App Store.

Lemma first_fault_in_raises env calls c s msg :
  first_fault_in env calls = Some (c, s, msg) -> plot_raises env c s = Some msg.
Proof.
  induction calls as [| [c' s'] calls IH]; simpl; [discriminate |].
  destruct (plot_raises env c' s') eqn:E; [| exact IH].
  intros [= <- <- <-]. exact E.
Qed.

Lemma first_fault_in_None env calls :
  first_fault_in env calls = None ->
  forall c s, (c, s) ∈ calls -> plot_raises env c s = None.
Proof.
  induction calls as [| [c' s'] calls IH]; simpl; intros H c s Hin.
  - by apply not_elem_of_nil in Hin.
  - destruct (plot_raises env c' s') eqn:E; [discriminate |].
    apply elem_of_cons in Hin as [[= -> ->] | Hin]; [exact E | eauto].
Qed.

Lemma schedule_complete c s : (c, s) ∈ schedule.
Proof. destruct c, s; vm_compute; set_solver. Qed.

Lemma first_fault_plots_ok env : plots_ok env -> first_fault env = None.
Proof.
  intros Hok. destruct (first_fault env) as [[[c s] msg] |] eqn:E; [| reflexivity].
  apply first_fault_in_raises in E. rewrite Hok in E. discriminate.
Qed.

Lemma first_fault_plot_fails env :
  plot_fails env -> exists c s msg, first_fault env = Some (c, s, msg).
Proof.
  intros (c & s & msg & H).
  destruct (first_fault env) as [[[c' s'] msg'] |] eqn:E; [eauto |].
  rewrite (first_fault_in_None env schedule E c s (schedule_complete c s)) in H.
  discriminate.
Qed.

(** C8.  The generator reads the store and never writes it: after any
    run of [generate_visualizations], whether it returns charts or fails
    on the way, the store holds the same observations in the same order,
    and so has the same length. *)
Theorem generate_visualizations_read_only (env : Env) (st : State) :
  data_store (snd (generate_visualizations env st)) = data_store st /\
  length (data_store (snd (generate_visualizations env st))) = length (data_store st).
Proof.
  pose proof (generate_visualizations_same_store env st) as H.
  unfold same_store in H. rewrite H. split; reflexivity.
Qed.

(** C5.  The chart result is all or nothing.  On an empty store the
    generator returns the null result and touches nothing; on a non-empty
    store, when no plotting call raises, it returns exactly the four
    charts; no run returns anything but one of the two; and the complete
    result has the four stable keys, each with its file. *)
Theorem generate_visualizations_all_or_nothing (env : Env) (st : State) :
  (data_store st = [] -> generate_visualizations env st = (Return None, st)) /\
  (data_store st <> [] -> plots_ok env ->
     fst (generate_visualizations env st) = Return (Some four_charts)) /\
  (fst (generate_visualizations env st) = Return None \/
   fst (generate_visualizations env st) = Return (Some four_charts)) /\
  size four_charts = 4%nat /\
  dom four_charts =
    ({[ "income_vs_score"; "age_vs_score"; "age_vs_income";
        "cluster_distribution" ]} : gset string) /\
  (forall c, four_charts !! chart_key c = Some (chart_file c)).
Proof.
  rewrite generate_visualizations_run.
  split; [| split; [| split; [| split; [| split]]]].
  - intros ->. reflexivity.
  - intros Hne Hok. destruct (data_store st); [congruence |].
    rewrite (first_fault_plots_ok env Hok). reflexivity.
  - destruct (data_store st); [by left |].
    destruct (first_fault env) as [[[c s] msg] |]; [by left | by right].
  - reflexivity.
  - unfold four_charts. simpl. rewrite !dom_insert_L, dom_empty_L. set_solver.
  - intros []; reflexivity.
Qed.

Lemma generate_visualizations_returns env st :
  exists images, fst (generate_visualizations env st) = Return images.
Proof.
  rewrite generate_visualizations_run.
  destruct (data_store st); [eauto |].
  destruct (first_fault env) as [[[c s] msg] |]; eauto.
Qed.

Lemma label_in_range st age income score :
  (label_of st age income score < n_clusters (kmeans st))%nat.
Proof. unfold label_of. apply assign_in_range. Qed.

(** The store after an accepted request, whatever happens next. *)
Lemma predict_accepted_store form age income score env st :
  reads form age income score -> valid age income score ->
  assignment_error st age income score = None ->
  data_store (snd (predict form env st)) =
  data_store st ++ [observation st age income score].
Proof.
  intros Hr Hv Hok. rewrite (predict_accepted _ _ _ _ env st Hr Hv Hok). cbv zeta.
  destruct (makedirs_raises env); [reflexivity |].
  pose proof (generate_visualizations_same_store env
                (appended (observation st age income score) st)) as Hg.
  unfold same_store in Hg.
  destruct (generate_visualizations env _) as [[images | e] st2]; simpl in Hg.
  - destruct (render_raises env); simpl; exact Hg.
  - simpl. exact Hg.
Qed.

(** C1, as amended.  For every valid input that the scaler and the model
    accept (neither [scaler.transform] nor [kmeans.predict] raises on it),
    the route computes the label of the nearest centroid, an integer below
    the centroid count of the model, and appends exactly one Observation:
    the raw values with that label.  When neither the creation of the
    output directory nor the rendering of the page raises, it returns the
    page with the summary string of that label. *)
Theorem predict_valid_input
  (form : gmap string string) (age income score : Z) (env : Env) (st : State) :
  reads form age income score -> valid age income score ->
  assignment_error st age income score = None ->
  (label_of st age income score < n_clusters (kmeans st))%nat /\
  data_store (snd (predict form env st)) =
    data_store st ++
    [{| Age := age; Income := income; Score := score;
        Cluster := label_of st age income score |}] /\
  length (data_store (snd (predict form env st))) = S (length (data_store st)) /\
  (makedirs_raises env = None -> render_raises env = None ->
   exists images,
     fst (predict form env st) =
     Return (Rendered "index.html"
               (Some ("Customer belongs to Cluster " +:+
                      Py.format_nat (label_of st age income score)))
               images)).
Proof.
  intros Hr Hv Hok.
  pose proof (predict_accepted_store _ _ _ _ env st Hr Hv Hok) as Hstore.
  split; [apply label_in_range |]. split; [exact Hstore |]. split.
  - rewrite Hstore, length_app. simpl. lia.
  - intros Hmk Hrd. rewrite (predict_accepted _ _ _ _ env st Hr Hv Hok). cbv zeta.
    rewrite Hmk.
    destruct (generate_visualizations_returns env
                (appended (observation st age income score) st)) as [images Hg].
    destruct (generate_visualizations env _) as [r st2]. simpl in Hg. subst r.
    rewrite Hrd. exists images. reflexivity.
Qed.

(** C2.  For every invalid input (a field that is present and is not
    numeric or not an integer literal, or an age, income or score out of
    range) the route fails with a [ValueError], which it turns into one
    flashed message and a redirect to the dashboard: no exception leaves
    the route, and the store is unchanged, so its length is. *)
Theorem predict_invalid_input
  (form : gmap string string) (env : Env) (st : State) :
  invalid form ->
  exists e, Py.is_ValueError e = true /\
    predict form env st = (Return (Redirect "dashboard"), flashed e st) /\
    data_store (snd (predict form env st)) = data_store st /\
    length (data_store (snd (predict form env st))) = length (data_store st).
Proof.
  intros H. destruct (validation_error_invalid form H) as [e He].
  exists e. rewrite (predict_rejected form e env st He).
  split; [eapply validation_error_is_ValueError; eassumption |].
  repeat split.
Qed.

Lemma missing_field_zero form key : form !! key = None -> field form key = Some 0.
Proof. unfold field, form_get. intros ->. reflexivity. Qed.

Lemma zero_out_of_range form key age income score :
  key ∈ fields -> form !! key = None -> reads form age income score ->
  in_range age income score = false.
Proof.
  intros Hkey Hnone (Ha & Hi & Hs).
  pose proof (missing_field_zero form key Hnone) as H0.
  unfold fields in Hkey. set_unfold.
  unfold in_range, Py.all. simpl.
  destruct Hkey as [-> | [-> | [-> | []]]].
  - assert (age = 0) as -> by congruence. reflexivity.
  - assert (income = 0) as -> by congruence. simpl. btauto.
  - assert (score = 0) as -> by congruence. simpl. btauto.
Qed.

(** C9.  A request that lacks one of the three fields is read with 0 in
    its place; 0 fails the range check whatever the other two values are;
    so the request is rejected like any invalid input: a [ValueError]
    turned into a flash and a redirect, nothing appended.  When the fields
    that are present are integers, the error is the one of the range
    check, not one about the missing field. *)
Theorem predict_missing_field
  (form : gmap string string) (key : string) (env : Env) (st : State) :
  key ∈ fields -> form !! key = None ->
  field form key = Some 0 /\
  (forall age income score,
     reads form age income score -> in_range age income score = false) /\
  exists e, Py.is_ValueError e = true /\
    predict form env st = (Return (Redirect "dashboard"), flashed e st) /\
    data_store (snd (predict form env st)) = data_store st /\
    ((forall k, k ∈ fields -> is_Some (field form k)) ->
     e = Py.ValueError "Invalid input values").
Proof.
  intros Hkey Hnone.
  split; [apply missing_field_zero, Hnone |].
  split; [intros age income score; apply (zero_out_of_range form key); assumption |].
  assert (exists e, validation_error form = Some e /\
            ((forall k, k ∈ fields -> is_Some (field form k)) ->
             e = Py.ValueError "Invalid input values")) as (e & He & Hmsg).
  { unfold validation_error.
    destruct (Py.int (form_get form "age" (Py.Int 0))) as [ea | age] eqn:Ea.
    { exists ea. split; [reflexivity |]. intros Hall.
      destruct (Hall "age") as [z Hz]; [unfold fields; repeat constructor |].
      apply field_int in Hz. congruence. }
    destruct (Py.int (form_get form "income" (Py.Int 0))) as [ei | income] eqn:Ei.
    { exists ei. split; [reflexivity |]. intros Hall.
      destruct (Hall "income") as [z Hz]; [unfold fields; repeat constructor |].
      apply field_int in Hz. congruence. }
    destruct (Py.int (form_get form "score" (Py.Int 0))) as [es | score] eqn:Es.
    { exists es. split; [reflexivity |]. intros Hall.
      destruct (Hall "score") as [z Hz]; [unfold fields; repeat constructor |].
      apply field_int in Hz. congruence. }
    rewrite (zero_out_of_range form key age income score Hkey Hnone).
    - eauto.
    - unfold reads, field. rewrite Ea, Ei, Es. auto. }
  exists e. rewrite (predict_rejected form e env st He).
  split; [eapply validation_error_is_ValueError; eassumption |].
  repeat split. exact Hmsg.
Qed.

Lemma img_path_inj c c' : img_path c = img_path c' -> c = c'.
Proof. destruct c, c'; intros H; try reflexivity; vm_compute in H; discriminate. Qed.

Lemma img_path_static c : img_path c = "static/" +:+ chart_file c.
Proof. reflexivity. Qed.

Lemma save_cons c cs df st : save (c :: cs) df st = save cs df (save [c] df st).
Proof. reflexivity. Qed.

Lemma save_lookup_other cs df : forall st p,
  (forall c, c ∈ cs -> img_path c <> p) ->
  static (save cs df st) !! p = static st !! p.
Proof.
  induction cs as [| c cs IH]; intros st p Hp; [reflexivity |].
  rewrite save_cons, IH.
  - simpl. apply lookup_insert_ne, Hp. left.
  - intros c' Hc'. apply Hp. by right.
Qed.

Lemma save_lookup_kept cs df : forall st c,
  static st !! img_path c = Some (figure_of c df) ->
  static (save cs df st) !! img_path c = Some (figure_of c df).
Proof.
  induction cs as [| c' cs IH]; intros st c H; [exact H |].
  rewrite save_cons. apply IH. simpl.
  destruct (decide (c' = c)) as [-> | Hne].
  - apply lookup_insert_eq.
  - rewrite lookup_insert_ne; [exact H |]. intros Heq. by apply img_path_inj in Heq.
Qed.

Lemma save_lookup_in cs df : forall st c,
  c ∈ cs -> static (save cs df st) !! img_path c = Some (figure_of c df).
Proof.
  induction cs as [| c' cs IH]; intros st c Hin; [by apply not_elem_of_nil in Hin |].
  rewrite save_cons. apply elem_of_cons in Hin as [-> | Hin]; [| by apply IH].
  apply save_lookup_kept. simpl. apply lookup_insert_eq.
Qed.

Lemma static_logged e st : static (logged e st) = static st.
Proof. reflexivity. Qed.

(** The files after a batch that stopped at the call [(c, s)]. *)
Lemma failed_files e c s st c' :
  static (logged e (save (saved_before c s) (data_store st) st)) !! img_path c' =
  if bool_decide (c' ∈ saved_before c s)
  then Some (figure_of c' (data_store st))
  else static st !! img_path c'.
Proof.
  rewrite static_logged. case_bool_decide as Hin.
  - apply save_lookup_in, Hin.
  - apply save_lookup_other. intros c'' Hc'' Heq.
    apply img_path_inj in Heq. by subst.
Qed.

Lemma generator_fails_soft env st :
  data_store st <> [] -> plot_fails env ->
  exists c s msg, first_fault env = Some (c, s, msg) /\
    plot_raises env c s = Some msg /\
    generate_visualizations env st =
    (Return None, logged (Py.Fault msg) (save (saved_before c s) (data_store st) st)).
Proof.
  intros Hne Hf. rewrite generate_visualizations_run.
  destruct (data_store st) as [| o os] eqn:Hds; [congruence |].
  destruct (first_fault_plot_fails env Hf) as (c & s & msg & E).
  exists c, s, msg. split; [exact E |]. split; [| rewrite E; reflexivity].
  eapply first_fault_in_raises, E.
Qed.

(** C6, as amended.  A chart failure is soft for the response, not for
    the files.  Whenever a plotting call raises while the generator runs
    on a non-empty store, the generator prints the failure and returns the
    null result, and the error does not leave it; but of the chart files,
    those saved before the failing call are already replaced by charts of
    the current store and the others are as they were, so a partial set of
    files is left behind whenever the failure is not in the first block.
    (When the failing call is itself a save, nothing is said of the file
    it was writing.)
    Inside a request with valid input that the artifacts accept and that
    reached the generator (the directory was created), the Observation
    stays in the store and the failure is printed; the route goes on to
    render the page, and when the rendering does not raise it answers with
    the summary of the label, with no charts, and flashes nothing. *)
Theorem chart_failure_fails_soft
  (form : gmap string string) (age income score : Z) (env : Env) (st : State) :
  reads form age income score -> valid age income score ->
  assignment_error st age income score = None ->
  makedirs_raises env = None -> plot_fails env ->
  (forall st', data_store st' <> [] ->
     fst (generate_visualizations env st') = Return None /\
     data_store (snd (generate_visualizations env st')) = data_store st' /\
     exists c s msg, first_fault env = Some (c, s, msg) /\
       plot_raises env c s = Some msg /\
       stdout (snd (generate_visualizations env st')) =
       stdout st' ++ [ErrorGeneratingVisualizations (Py.Fault msg)] /\
       forall c', (s = Save -> c' <> c) ->
         static (snd (generate_visualizations env st')) !! img_path c' =
         if bool_decide (c' ∈ saved_before c s)
         then Some (figure_of c' (data_store st'))
         else static st' !! img_path c') /\
  data_store (snd (predict form env st)) =
    data_store st ++ [observation st age income score] /\
  (exists c s msg, first_fault env = Some (c, s, msg) /\
     plot_raises env c s = Some msg /\
     stdout (snd (predict form env st)) =
     stdout st ++ [ErrorGeneratingVisualizations (Py.Fault msg)] /\
     forall c', (s = Save -> c' <> c) ->
       static (snd (predict form env st)) !! img_path c' =
       if bool_decide (c' ∈ saved_before c s)
       then Some (figure_of c' (data_store st ++ [observation st age income score]))
       else static st !! img_path c') /\
  (render_raises env = None ->
   fst (predict form env st) =
     Return (Rendered "index.html"
               (Some ("Customer belongs to Cluster " +:+
                      Py.format_nat (label_of st age income score)))
               None) /\
   flashes (snd (predict form env st)) = flashes st).
Proof.
  intros Hr Hv Hok Hmk Hf. split.
  { intros st' Hne.
    destruct (generator_fails_soft env st' Hne Hf) as (c & s & msg & Hfirst & Hraise & ->).
    split; [reflexivity |]. split; [reflexivity |].
    exists c, s, msg. split; [exact Hfirst |]. split; [exact Hraise |].
    split; [reflexivity |]. intros c' _. apply failed_files. }
  split; [apply predict_accepted_store; assumption |].
  rewrite (predict_accepted _ _ _ _ env st Hr Hv Hok). cbv zeta. rewrite Hmk.
  destruct (generator_fails_soft env (appended (observation st age income score) st))
    as (c & s & msg & Hfirst & Hraise & ->); [| exact Hf |].
  { simpl. intros Hnil. by apply app_nil in Hnil as [_ ?]. }
  split.
  - exists c, s, msg. split; [exact Hfirst |]. split; [exact Hraise |].
    split; [destruct (render_raises env); reflexivity |].
    intros c' _.
    pose proof (failed_files (Py.Fault msg) c s
                  (appended (observation st age income score) st) c') as Hfiles.
    destruct (render_raises env); exact Hfiles.
  - intros ->. split; reflexivity.
Qed.

Lemma submitted_accepted st env form age income score :
  reads form age income score -> valid age income score ->
  assignment_error st age income score = None ->
  submitted st (CallPredict env form) = Some (observation st age income score).
Proof.
  intros (Ha & Hi & Hs) Hv Hok. apply in_range_valid in Hv.
  unfold submitted. rewrite Ha, Hi, Hs, Hv, Hok. reflexivity.
Qed.

Lemma submitted_refused st env form age income score e :
  reads form age income score -> valid age income score ->
  assignment_error st age income score = Some e ->
  submitted st (CallPredict env form) = None.
Proof.
  intros (Ha & Hi & Hs) Hv Herr. apply in_range_valid in Hv.
  unfold submitted. rewrite Ha, Hi, Hs, Hv, Herr. reflexivity.
Qed.

Lemma early_error_reads st form age income score :
  reads form age income score -> validation_error form = None ->
  early_error st form = assignment_error st age income score.
Proof.
  intros (Ha & Hi & Hs) E. unfold early_error. rewrite E, Ha, Hi, Hs. reflexivity.
Qed.

Lemma submitted_rejected st env form e :
  validation_error form = Some e -> submitted st (CallPredict env form) = None.
Proof.
  unfold validation_error, submitted, field.
  destruct (Py.int (form_get form "age" (Py.Int 0))) as [| age]; [reflexivity |].
  destruct (Py.int (form_get form "income" (Py.Int 0))) as [| income]; [reflexivity |].
  destruct (Py.int (form_get form "score" (Py.Int 0))) as [| score]; [reflexivity |].
  destruct (in_range age income score); [discriminate | reflexivity].
Qed.

Lemma step_store st c :
  data_store (step st c) = data_store st ++ option_list (submitted st c).
Proof.
  destruct c as [env form | env | env]; simpl step.
  - destruct (predict_cases form st)
      as [[e E] | [(age & income & score & e & Hr & Hv & _ & Herr)
                  | (age & income & score & Hr & Hv & _ & Hok)]].
    + rewrite (submitted_rejected st env form e E), (predict_rejected form e env st E).
      simpl. by rewrite app_nil_r.
    + rewrite (submitted_refused st env form _ _ _ e Hr Hv Herr),
        (predict_refused _ _ _ _ e env st Hr Hv Herr).
      simpl. by rewrite app_nil_r.
    + rewrite (submitted_accepted st env form _ _ _ Hr Hv Hok).
      apply predict_accepted_store; assumption.
  - simpl. rewrite app_nil_r. apply generate_visualizations_same_store.
  - simpl. rewrite app_nil_r, dashboard_unchanged. reflexivity.
Qed.

Lemma step_same_artifacts st c : same_artifacts st (step st c).
Proof.
  destruct c as [env form | env | env]; simpl.
  - apply predict_same_artifacts.
  - apply generate_visualizations_same_artifacts.
  - rewrite dashboard_unchanged. apply same_artifacts_refl.
Qed.

Lemma submitted_same_artifacts st st' c :
  same_artifacts st st' -> submitted st' c = submitted st c.
Proof.
  intros [Hs Hk]. destruct c; simpl; [| reflexivity | reflexivity].
  unfold observation, label_of, assignment_error. rewrite Hs, Hk. reflexivity.
Qed.

Lemma run_same_artifacts calls : forall st, same_artifacts st (run calls st).
Proof.
  induction calls as [| c calls IH]; intros st; simpl.
  - apply same_artifacts_refl.
  - eapply same_artifacts_trans; [apply step_same_artifacts | apply IH].
Qed.

Lemma omap_submitted_same_artifacts st st' (calls : list Call) :
  same_artifacts st st' -> omap (submitted st') calls = omap (submitted st) calls.
Proof.
  intros H. induction calls as [| c calls IH]; [reflexivity |]. csimpl.
  rewrite IH, (submitted_same_artifacts st st' c H). reflexivity.
Qed.

Lemma run_store calls : forall st,
  data_store (run calls st) = data_store st ++ omap (submitted st) calls.
Proof.
  induction calls as [| c calls IH]; intros st.
  - simpl. by rewrite app_nil_r.
  - change (run (c :: calls) st) with (run calls (step st c)).
    rewrite IH, step_store, <- app_assoc. f_equal.
    rewrite (omap_submitted_same_artifacts st (step st c) calls (step_same_artifacts st c)).
    csimpl. destruct (submitted st c); reflexivity.
Qed.


(** C7.  The store is append-only across every operation.  After any
    sequence of predict, visualization and dashboard calls the store is
    the old store followed by the Observations of the requests that
    reached the append (valid input that the scaler and the model accept),
    in the order the requests were made; so the old store is a prefix of
    the new one, and every Observation keeps its position and value. *)
Theorem data_store_append_only (calls : list Call) (st : State) :
  data_store (run calls st) = data_store st ++ omap (submitted st) calls /\
  data_store st `prefix_of` data_store (run calls st) /\
  (forall i o, data_store st !! i = Some o -> data_store (run calls st) !! i = Some o).
Proof.
  pose proof (run_store calls st) as H. split; [exact H |]. split.
  - rewrite H. apply prefix_app_r. reflexivity.
  - intros i o Hi. rewrite H. apply lookup_app_l_Some, Hi.
Qed.

(** C4.  The Scaler is a pure, frozen transform.  Applying it to an array
    returns the per-feature transform of its rows, or raises when the
    scaler refuses the array, and leaves the whole state as it was either
    way; the outcome depends on the scaler and the array alone, so a second
    application to the same array, in any environment, gives the same
    result; and no sequence of operations changes the scaler (nor the
    cluster model). *)
Theorem scaler_pure_and_frozen (X : list Features) (env : Env) (st : State) :
  scaler_transform X env st =
    (match transform_raises (scaler st) X with
     | Some msg => Raised (Py.Fault msg)
     | None => Return (transform (scaler st) X)
     end, st) /\
  (forall env',
     scaler_transform X env' (snd (scaler_transform X env st)) =
     scaler_transform X env st) /\
  (forall calls,
     scaler (run calls st) = scaler st /\ kmeans (run calls st) = kmeans st).
Proof.
  assert (forall env0 st0, scaler_transform X env0 st0 =
            (match transform_raises (scaler st0) X with
             | Some msg => Raised (Py.Fault msg)
             | None => Return (transform (scaler st0) X)
             end, st0)) as Hrun.
  { intros env0 st0. unfold scaler_transform, mbind, M_bind, bind, get.
    destruct (transform_raises (scaler st0) X); reflexivity. }
  split; [apply Hrun |]. split.
  - intros env'. rewrite (Hrun env st). cbn [snd]. rewrite (Hrun env' st). reflexivity.
  - intros calls. apply run_same_artifacts.
Qed.

(** C10.  An error response does not promise an unchanged store.  Some
    execution answers with the redirect of the error path and leaves the
    store one Observation longer.  This is so for every valid input that
    the artifacts accept when the creation of the output directory or the
    rendering of the page raises.  On the error path the store is
    unchanged exactly when the failure came before the append: when
    validation failed, or when the scaler or the model raised. *)
Theorem predict_error_after_append :
  (exists env form st,
     fst (predict form env st) = Return (Redirect "dashboard") /\
     length (data_store (snd (predict form env st))) = S (length (data_store st))) /\
  (forall env form st age income score,
     reads form age income score -> valid age income score ->
     assignment_error st age income score = None ->
     is_Some (makedirs_raises env) \/ is_Some (render_raises env) ->
     fst (predict form env st) = Return (Redirect "dashboard") /\
     data_store (snd (predict form env st)) =
       data_store st ++ [observation st age income score]) /\
  (forall env form st,
     fst (predict form env st) = Return (Redirect "dashboard") ->
     (data_store (snd (predict form env st)) = data_store st <->
      is_Some (early_error st form))).
Proof.
  assert (forall env form st age income score,
     reads form age income score -> valid age income score ->
     assignment_error st age income score = None ->
     is_Some (makedirs_raises env) \/ is_Some (render_raises env) ->
     fst (predict form env st) = Return (Redirect "dashboard") /\
     data_store (snd (predict form env st)) =
       data_store st ++ [observation st age income score]) as Hlate.
  { intros env form st age income score Hr Hv Hok Hfault.
    split; [| apply predict_accepted_store; assumption].
    rewrite (predict_accepted _ _ _ _ env st Hr Hv Hok). cbv zeta.
    destruct (makedirs_raises env) as [msg |]; [reflexivity |].
    destruct Hfault as [[? [=]] | [msg Hmsg]].
    destruct (generate_visualizations env _) as [[images | e] st2]; [| reflexivity].
    rewrite Hmsg. reflexivity. }
  split; [| split; [exact Hlate |]].
  - exists Sample.makedirs_denied, (Sample.request "25" "40" "60"), Sample.fresh.
    destruct (Hlate Sample.makedirs_denied (Sample.request "25" "40" "60")
                Sample.fresh 25 40 60) as [Hresp Hstore].
    + repeat split.
    + repeat split; lia.
    + vm_compute. reflexivity.
    + left. eexists. reflexivity.
    + split; [exact Hresp |]. rewrite Hstore, length_app. simpl. lia.
  - intros env form st Hresp.
    destruct (predict_cases form st)
      as [[e E] | [(age & income & score & e & Hr & Hv & E & Herr)
                  | (age & income & score & Hr & Hv & E & Hok)]].
    + rewrite (predict_rejected form e env st E). unfold early_error. rewrite E.
      split; [eauto | reflexivity].
    + rewrite (predict_refused _ _ _ _ e env st Hr Hv Herr).
      rewrite (early_error_reads st form _ _ _ Hr E), Herr.
      split; [eauto | reflexivity].
    + rewrite (predict_accepted_store _ _ _ _ env st Hr Hv Hok).
      rewrite (early_error_reads st form _ _ _ Hr E), Hok. split.
      * intros Hsame. apply (f_equal length) in Hsame.
        rewrite length_app in Hsame. simpl in Hsame. lia.
      * intros [? [=]].
Qed.

End Pipeline.

(** ** Concrete runs *)

Section Runs.

Import Artifacts App Store Sample.

Example int_accepts : Py.int_of_string " +1_000 " = Some 1000.
Proof. reflexivity. Qed.

Example int_rejects : Py.int_of_string "25.0" = None.
Proof. reflexivity. Qed.

Example int_limit :
  Py.int (Py.Str (ten_to 4299)) = inr (10 ^ 4299) /\
  Py.int (Py.Str (ten_to 4300)) = inl (Py.ValueError_limit 4301) /\
  Py.int (Py.Str (ten_to 4300 +:+ "abc")) = inl (Py.ValueError_limit 4301) /\
  Py.int (Py.Str "12abc") = inl (Py.ValueError_literal "12abc").
Proof. vm_compute. repeat split. Qed.

Example assign_tie : assign kmeans_tie (row 0 0 0) = 1%nat.
Proof. reflexivity. Qed.

Example predict_25_40_60 :
  fst (predict (request "25" "40" "60") calm fresh) =
  Return (Rendered "index.html" (Some "Customer belongs to Cluster 3") (Some four_charts)).
Proof. vm_compute. reflexivity. Qed.

Example store_25_40_60 :
  data_store one_seen = [{| Age := 25; Income := 40; Score := 60; Cluster := 3 |}].
Proof. vm_compute. reflexivity. Qed.

Lemma reads_25_40_60 : reads (request "25" "40" "60") 25 40 60.
Proof. repeat split. Qed.

Lemma valid_25_40_60 : valid 25 40 60.
Proof. repeat split; lia. Qed.

Lemma reads_ten_to_400 : reads (request ten_to_400 "40" "60") (10 ^ 400) 40 60.
Proof. vm_compute. repeat split. Qed.

Lemma valid_ten_to_400 : valid (10 ^ 400) 40 60.
Proof. apply in_range_valid. vm_compute. reflexivity. Qed.

(** C1, as stated, fails in two ways.  The input 25, 40, 60 is valid, yet
    when the output directory cannot be created the route answers with
    the redirect of the error path, not with the summary.  And an age of
    ten to the power 400 with income 40 and score 60 is valid, yet the
    scaler refuses an integer no float holds: the route flashes that
    error and redirects, and nothing is appended. *)
Lemma predict_valid_input_may_fail :
  (reads (request "25" "40" "60") 25 40 60 /\ valid 25 40 60 /\
   fst (predict (request "25" "40" "60") makedirs_denied fresh) =
   Return (Redirect "dashboard")) /\
  (reads (request ten_to_400 "40" "60") (10 ^ 400) 40 60 /\
   valid (10 ^ 400) 40 60 /\
   predict (request ten_to_400 "40" "60") calm fresh =
   (Return (Redirect "dashboard"),
    flashed (Py.Fault "int too large to convert to float") fresh) /\
   data_store (snd (predict (request ten_to_400 "40" "60") calm fresh)) = []).
Proof.
  split.
  - split; [exact reads_25_40_60 |]. split; [exact valid_25_40_60 |].
    vm_compute. reflexivity.
  - split; [exact reads_ten_to_400 |]. split; [exact valid_ten_to_400 |].
    split; [| vm_compute; reflexivity].
    apply (predict_refused _ (10 ^ 400) 40 60);
      [exact reads_ten_to_400 | exact valid_ten_to_400 | vm_compute; reflexivity].
Qed.

Lemma predict_valid_input_witness :
  (label_of fresh 25 40 60 < n_clusters (kmeans fresh))%nat /\
  data_store (snd (predict (request "25" "40" "60") calm fresh)) =
    data_store fresh ++
    [{| Age := 25; Income := 40; Score := 60; Cluster := label_of fresh 25 40 60 |}] /\
  length (data_store (snd (predict (request "25" "40" "60") calm fresh))) =
    S (length (data_store fresh)) /\
  (makedirs_raises calm = None -> render_raises calm = None ->
   exists images,
     fst (predict (request "25" "40" "60") calm fresh) =
     Return (Rendered "index.html"
               (Some ("Customer belongs to Cluster " +:+
                      Py.format_nat (label_of fresh 25 40 60)))
               images)).
Proof.
  apply (predict_valid_input (request "25" "40" "60") 25 40 60 calm fresh).
  - repeat split.
  - repeat split; lia.
  - vm_compute. reflexivity.
Defined.

Lemma predict_invalid_input_witness :
  exists e, Py.is_ValueError e = true /\
    predict (request "25" "40" "101") calm one_seen =
      (Return (Redirect "dashboard"), flashed e one_seen) /\
    data_store (snd (predict (request "25" "40" "101") calm one_seen)) =
      data_store one_seen /\
    length (data_store (snd (predict (request "25" "40" "101") calm one_seen))) =
      length (data_store one_seen).
Proof.
  apply (predict_invalid_input (request "25" "40" "101") calm one_seen).
  apply (invalid_range _ 25 40 101).
  - repeat split.
  - lia.
Defined.

Lemma predict_missing_field_witness :
  field (<["income" := "40"]> (<["score" := "60"]> ∅)) "age" = Some 0 /\
  (forall age income score,
     reads (<["income" := "40"]> (<["score" := "60"]> ∅)) age income score ->
     in_range age income score = false) /\
  exists e, Py.is_ValueError e = true /\
    predict (<["income" := "40"]> (<["score" := "60"]> ∅)) calm one_seen =
      (Return (Redirect "dashboard"), flashed e one_seen) /\
    data_store (snd (predict (<["income" := "40"]> (<["score" := "60"]> ∅)) calm one_seen)) =
      data_store one_seen /\
    ((forall k, k ∈ fields ->
        is_Some (field (<["income" := "40"]> (<["score" := "60"]> ∅)) k)) ->
     e = Py.ValueError "Invalid input values").
Proof.
  apply (predict_missing_field (<["income" := "40"]> (<["score" := "60"]> ∅)) "age"
           calm one_seen).
  - apply list_elem_of_here.
  - reflexivity.
Defined.

Lemma chart_failure_fails_soft_witness :
  (forall st', data_store st' <> [] ->
     fst (generate_visualizations disk_full st') = Return None /\
     data_store (snd (generate_visualizations disk_full st')) = data_store st' /\
     exists c s msg, first_fault disk_full = Some (c, s, msg) /\
       plot_raises disk_full c s = Some msg /\
       stdout (snd (generate_visualizations disk_full st')) =
       stdout st' ++ [ErrorGeneratingVisualizations (Py.Fault msg)] /\
       forall c', (s = Save -> c' <> c) ->
         static (snd (generate_visualizations disk_full st')) !! img_path c' =
         if bool_decide (c' ∈ saved_before c s)
         then Some (figure_of c' (data_store st'))
         else static st' !! img_path c') /\
  data_store (snd (predict (request "25" "40" "60") disk_full fresh)) =
    data_store fresh ++ [observation fresh 25 40 60] /\
  (exists c s msg, first_fault disk_full = Some (c, s, msg) /\
     plot_raises disk_full c s = Some msg /\
     stdout (snd (predict (request "25" "40" "60") disk_full fresh)) =
     stdout fresh ++ [ErrorGeneratingVisualizations (Py.Fault msg)] /\
     forall c', (s = Save -> c' <> c) ->
       static (snd (predict (request "25" "40" "60") disk_full fresh)) !! img_path c' =
       if bool_decide (c' ∈ saved_before c s)
       then Some (figure_of c' (data_store fresh ++ [observation fresh 25 40 60]))
       else static fresh !! img_path c') /\
  (render_raises disk_full = None ->
   fst (predict (request "25" "40" "60") disk_full fresh) =
     Return (Rendered "index.html"
               (Some ("Customer belongs to Cluster " +:+
                      Py.format_nat (label_of fresh 25 40 60)))
               None) /\
   flashes (snd (predict (request "25" "40" "60") disk_full fresh)) = flashes fresh).
Proof.
  apply (chart_failure_fails_soft (request "25" "40" "60") 25 40 60 disk_full fresh).
  - repeat split.
  - repeat split; lia.
  - vm_compute. reflexivity.
  - reflexivity.
  - exists AgeVsIncome, Save, "[Errno 28] No space left on device". reflexivity.
Defined.

(** C6, as stated, fails on the files: with the disk full at the third
    save, the request for 25, 40, 60 on an empty [static/] is answered
    with the label and no charts, yet the first two of the four chart
    files have been written and the last has not: a partial chart set is
    produced. *)
Lemma chart_failure_leaves_partial_files :
  reads (request "25" "40" "60") 25 40 60 /\ valid 25 40 60 /\
  plot_raises disk_full AgeVsIncome Save = Some "[Errno 28] No space left on device" /\
  static fresh = ∅ /\
  fst (predict (request "25" "40" "60") disk_full fresh) =
    Return (Rendered "index.html" (Some "Customer belongs to Cluster 3") None) /\
  static (snd (predict (request "25" "40" "60") disk_full fresh)) !! img_path IncomeVsScore =
    Some (figure_of IncomeVsScore [{| Age := 25; Income := 40; Score := 60; Cluster := 3 |}]) /\
  static (snd (predict (request "25" "40" "60") disk_full fresh)) !! img_path AgeVsScore =
    Some (figure_of AgeVsScore [{| Age := 25; Income := 40; Score := 60; Cluster := 3 |}]) /\
  static (snd (predict (request "25" "40" "60") disk_full fresh)) !! img_path ClusterDistribution =
    None.
Proof.
  split; [exact reads_25_40_60 |]. split; [exact valid_25_40_60 |].
  split; [reflexivity |]. split; [reflexivity |].
  split; [vm_compute; reflexivity |].
  split; [vm_compute; reflexivity |]. split; vm_compute; reflexivity.
Qed.

Example disk_full_response :
  fst (predict (request "25" "40" "60") disk_full fresh) =
  Return (Rendered "index.html" (Some "Customer belongs to Cluster 3") None).
Proof. vm_compute. reflexivity. Qed.

Example template_missing_response :
  fst (predict (request "25" "40" "60") template_missing fresh) =
    Return (Redirect "dashboard") /\
  data_store (snd (predict (request "25" "40" "60") template_missing fresh)) =
    [{| Age := 25; Income := 40; Score := 60; Cluster := 3 |}].
Proof. vm_compute. split; reflexivity. Qed.

Example missing_age_flash :
  flashes (snd (predict (<["income" := "40"]> (<["score" := "60"]> ∅)) calm fresh)) =
  [{| flash_error := Py.ValueError "Invalid input values"; flash_category := "danger" |}].
Proof. vm_compute. reflexivity. Qed.

Example text_age_flash :
  flashes (snd (predict (request "abc" "40" "60") calm fresh)) =
  [{| flash_error := Py.ValueError_literal "abc"; flash_category := "danger" |}].
Proof. vm_compute. reflexivity. Qed.

Example disk_full_log :
  stdout (snd (predict (request "25" "40" "60") disk_full fresh)) =
  [ErrorGeneratingVisualizations (Py.Fault "[Errno 28] No space left on device")].
Proof. vm_compute. reflexivity. Qed.

Example disk_full_files :
  dom (static (snd (predict (request "25" "40" "60") disk_full fresh))) =
  ({[ "static/income_vs_score.png"; "static/age_vs_score.png" ]} : gset string).
Proof. vm_compute. reflexivity. Qed.

End Runs.

(** ** Further properties of the pipeline *)

Section StorePipeline.
Import Artifacts App Store.

Lemma generate_visualizations_flashes env st :
  flashes (snd (generate_visualizations env st)) = flashes st.
Proof.
  rewrite generate_visualizations_run.
  destruct (data_store st); [reflexivity |].
  destruct (first_fault env) as [[[c s] msg] |]; reflexivity.
Qed.

(** X1.  [/predict] always answers and never lets an exception out: it
    either renders the result page with the summary of a label and flashes
    nothing, or it redirects to the dashboard after flashing exactly one
    message of category [danger]. *)
Theorem predict_always_answers (form : gmap string string) (env : Env) (st : State) :
  (exists label images,
     fst (predict form env st) =
       Return (Rendered "index.html"
                 (Some ("Customer belongs to Cluster " +:+ Py.format_nat label)) images) /\
     flashes (snd (predict form env st)) = flashes st) \/
  (exists e,
     fst (predict form env st) = Return (Redirect "dashboard") /\
     flashes (snd (predict form env st)) =
       flashes st ++ [{| flash_error := e; flash_category := "danger" |}]).
Proof.
  destruct (predict_cases form st)
    as [[e E] | [(age & income & score & e & Hr & Hv & _ & Herr)
                | (age & income & score & Hr & Hv & _ & Hok)]].
  - right. exists e. rewrite (predict_rejected form e env st E). split; reflexivity.
  - right. exists e. rewrite (predict_refused _ _ _ _ e env st Hr Hv Herr).
    split; reflexivity.
  - rewrite (predict_accepted _ _ _ _ env st Hr Hv Hok). cbv zeta.
    destruct (makedirs_raises env) as [msg |].
    { right. exists (Py.Fault msg). split; reflexivity. }
    pose proof (generate_visualizations_flashes env
                  (appended (observation st age income score) st)) as Hfl.
    destruct (generate_visualizations_returns env
                (appended (observation st age income score) st)) as [images Hg].
    destruct (generate_visualizations env _) as [r st2]. simpl in Hg, Hfl. subst r.
    destruct (render_raises env) as [msg |].
    + right. exists (Py.Fault msg). split; [reflexivity |]. simpl. rewrite Hfl. reflexivity.
    + left. exists (label_of st age income score), images. split; [reflexivity | exact Hfl].
Qed.

(** X2.  When [/predict] renders a page, the request was valid: the three
    fields read as integers within the checked ranges, the scaler and the
    model accepted them, neither the directory creation nor the rendering
    raised, the page is [index.html]
    with the summary of the label the model gives to those values, the
    store gained exactly that Observation, and the page carries the four
    charts when no plotting call raised and no charts when one did. *)
Theorem predict_page_sound
  (form : gmap string string) (env : Env) (st : State)
  (template : string) (prediction : option string) (images : option (gmap string string)) :
  fst (predict form env st) = Return (Rendered template prediction images) ->
  exists age income score,
    reads form age income score /\ valid age income score /\
    assignment_error st age income score = None /\
    makedirs_raises env = None /\ render_raises env = None /\
    template = "index.html" /\
    prediction = Some ("Customer belongs to Cluster " +:+
                       Py.format_nat (label_of st age income score)) /\
    data_store (snd (predict form env st)) =
      data_store st ++ [observation st age income score] /\
    (images = Some four_charts /\ plots_ok env \/ images = None /\ plot_fails env).
Proof.
  intros Hpage.
  destruct (predict_cases form st)
    as [[e E] | [(age & income & score & e & Hr & Hv & _ & Herr)
                | (age & income & score & Hr & Hv & _ & Hok)]].
  { rewrite (predict_rejected form e env st E) in Hpage. discriminate. }
  { rewrite (predict_refused _ _ _ _ e env st Hr Hv Herr) in Hpage. discriminate. }
  exists age, income, score.
  pose proof (predict_accepted_store _ _ _ _ env st Hr Hv Hok) as Hstore.
  rewrite (predict_accepted _ _ _ _ env st Hr Hv Hok) in Hpage. cbv zeta in Hpage.
  destruct (makedirs_raises env) as [msg |]; [discriminate |].
  rewrite generate_visualizations_run in Hpage.
  simpl data_store in Hpage.
  destruct (data_store st ++ [observation st age income score]) as [| o os] eqn:Hds.
  { by apply app_nil in Hds as [_ ?]. }
  destruct (first_fault env) as [[[c s] msg] |] eqn:Ef;
    (destruct (render_raises env) as [msg' |]; [discriminate |]);
    injection Hpage as <- <- <-; repeat (split; [done |]).
  - right. split; [reflexivity |]. exists c, s, msg. eapply first_fault_in_raises, Ef.
  - left. split; [reflexivity |]. intros c s.
    apply (first_fault_in_None env schedule Ef), schedule_complete.
Qed.

Lemma submitted_well_formed st c o : submitted st c = Some o -> well_formed st o.
Proof.
  destruct c as [env form | env | env]; simpl; [| discriminate | discriminate].
  destruct (field form "age") as [age |]; [| discriminate].
  destruct (field form "income") as [income |]; [| discriminate].
  destruct (field form "score") as [score |]; [| discriminate].
  destruct (in_range age income score) eqn:E; [| discriminate].
  destruct (assignment_error st age income score); [discriminate |].
  intros [= <-]. apply in_range_valid in E.
  split; [exact E |]. split; [reflexivity |]. apply label_in_range.
Qed.

Lemma omap_submitted_well_formed st (calls : list Call) :
  Forall (well_formed st) (omap (submitted st) calls).
Proof.
  induction calls as [| c calls IH]; csimpl; [constructor |].
  destruct (submitted st c) as [o |] eqn:E; [| exact IH].
  constructor; [eapply submitted_well_formed, E | exact IH].
Qed.

Lemma run_well_formed (calls : list Call) (st : State) :
  Forall (well_formed st) (data_store st) ->
  Forall (well_formed st) (data_store (run calls st)).
Proof.
  intros H. rewrite run_store. apply Forall_app. split; [exact H |].
  apply omap_submitted_well_formed.
Qed.

(** X3.  The store only ever holds checked Observations.  If every
    Observation in the store has its raw values within the checked ranges
    and carries the label the model gives to them, the same holds after any
    sequence of calls; in particular every stored label is below the
    centroid count. *)
Theorem store_stays_well_formed (calls : list Call) (st : State) :
  Forall (well_formed st) (data_store st) ->
  Forall (well_formed st) (data_store (run calls st)) /\
  (forall i o, data_store (run calls st) !! i = Some o ->
     Age o > 0 /\ Income o > 0 /\ 0 < Score o <= 100 /\
     (Cluster o < n_clusters (kmeans (run calls st)))%nat).
Proof.
  intros H. pose proof (run_well_formed calls st H) as Hrun.
  split; [exact Hrun |]. intros i o Hi.
  rewrite Forall_lookup in Hrun. destruct (Hrun i o Hi) as ((? & ? & ?) & _ & Hk).
  destruct (run_same_artifacts calls st) as [_ ->]. auto.
Qed.

Lemma accepted_count st (calls : list Call) :
  length (omap (submitted st) calls) =
  length (filter (fun c => is_Some (submitted st c)) calls).
Proof.
  induction calls as [| c calls IH]; [reflexivity |]. csimpl.
  rewrite filter_cons. destruct (submitted st c) as [o |] eqn:E.
  - rewrite decide_True by eauto. simpl. by rewrite IH.
  - rewrite decide_False by (intros [? ?]; discriminate). exact IH.
Qed.

(** X4.  From a successful start the two artifacts stay the ones that
    were loaded, every Observation in the store is a checked one, and the
    store is exactly as long as the number of predict requests made so far
    that reached the append: those with valid input on which neither the
    scaler nor the model raised. *)
Theorem served_store_invariant
  (files : ModelFiles) (disk : gmap string Figure) (st : State) (out : list BootLine)
  (calls : list Call) :
  load_models files disk = Serving st out ->
  load_kmeans files = inr (kmeans (run calls st)) /\
  load_scaler files = inr (scaler (run calls st)) /\
  Forall (well_formed st) (data_store (run calls st)) /\
  length (data_store (run calls st)) =
    length (filter (fun c => is_Some (submitted st c)) calls).
Proof.
  unfold load_models.
  destruct (load_kmeans files) as [e | km]; [discriminate |].
  destruct (load_scaler files) as [e | sc]; [discriminate |].
  intros [= <- _].
  destruct (run_same_artifacts calls
              {| scaler := sc; kmeans := km; data_store := []; static := disk;
                 stdout := []; flashes := [] |}) as [Hs Hk].
  rewrite Hs, Hk. split; [reflexivity |]. split; [reflexivity |]. split.
  - apply run_well_formed. constructor.
  - rewrite run_store. simpl. apply accepted_count.
Qed.


Lemma all_charts_complete c : c ∈ all_charts.
Proof. destruct c; unfold all_charts; repeat constructor. Qed.

Lemma four_charts_lookup key file :
  four_charts !! key = Some file ->
  exists c, key = chart_key c /\ file = chart_file c.
Proof.
  unfold four_charts. simpl. intros H.
  repeat (apply lookup_insert_Some in H as [[<- <-] | [_ H]];
          [first [ by exists IncomeVsScore | by exists AgeVsScore
                 | by exists AgeVsIncome | by exists ClusterDistribution ] |]).
  by rewrite lookup_empty in H.
Qed.

(** X5.  Every chart identifier the generator returns names a file that
    exists under [static/] when it returns, and that file is the chart of
    its key drawn from the whole store. *)
Theorem returned_charts_exist
  (env : Env) (st : State) (images : gmap string string) :
  fst (generate_visualizations env st) = Return (Some images) ->
  forall key file, images !! key = Some file ->
    exists c, key = chart_key c /\
      static (snd (generate_visualizations env st)) !! ("static/" +:+ file) =
      Some (figure_of c (data_store st)).
Proof.
  rewrite generate_visualizations_run.
  destruct (data_store st) as [| o os] eqn:Hds; [discriminate |]. rewrite <- Hds.
  destruct (first_fault env) as [[[c s] msg] |]; [discriminate |].
  intros [= <-] key file Hkey.
  destruct (four_charts_lookup key file Hkey) as (c & -> & ->).
  exists c. split; [reflexivity |].
  rewrite <- img_path_static. apply save_lookup_in, all_charts_complete.
Qed.

(** X6.  The charts behind a result page include the customer just
    submitted: when [/predict] returns a page with charts, each of the four
    files is the chart drawn from the store that already holds the new
    Observation. *)
Theorem page_charts_show_new_observation
  (form : gmap string string) (env : Env) (st : State)
  (template : string) (prediction : option string) (images : gmap string string) :
  fst (predict form env st) = Return (Rendered template prediction (Some images)) ->
  exists o, data_store (snd (predict form env st)) = data_store st ++ [o] /\
    forall c, static (snd (predict form env st)) !! img_path c =
              Some (figure_of c (data_store st ++ [o])).
Proof.
  intros Hpage.
  destruct (predict_cases form st)
    as [[e E] | [(age & income & score & e & Hr & Hv & _ & Herr)
                | (age & income & score & Hr & Hv & _ & Hok)]].
  { rewrite (predict_rejected form e env st E) in Hpage. discriminate. }
  { rewrite (predict_refused _ _ _ _ e env st Hr Hv Herr) in Hpage. discriminate. }
  exists (observation st age income score).
  split; [apply predict_accepted_store; assumption |].
  rewrite (predict_accepted _ _ _ _ env st Hr Hv Hok) in Hpage |- *. cbv zeta in Hpage |- *.
  destruct (makedirs_raises env) as [msg |]; [discriminate |].
  rewrite generate_visualizations_run in Hpage |- *.
  simpl data_store in Hpage |- *.
  destruct (data_store st ++ [observation st age income score]) as [| o os] eqn:Hds.
  { by apply app_nil in Hds as [_ ?]. }
  rewrite <- Hds in *.
  destruct (first_fault env) as [[[c s] msg] |];
    (destruct (render_raises env) as [msg' |]; [discriminate |]); [discriminate |].
  intros c. apply save_lookup_in, all_charts_complete.
Qed.

(** X7.  Neither the generator nor [/predict] writes any file other than
    the four chart files: every other path under the static files is as it
    was. *)
Theorem only_chart_files_written
  (form : gmap string string) (env : Env) (st : State) (p : string) :
  (forall c, img_path c <> p) ->
  static (snd (generate_visualizations env st)) !! p = static st !! p /\
  static (snd (predict form env st)) !! p = static st !! p.
Proof.
  intros Hp.
  assert (forall st', static (snd (generate_visualizations env st')) !! p = static st' !! p)
    as Hgen.
  { intros st'. rewrite generate_visualizations_run.
    destruct (data_store st'); [reflexivity |].
    destruct (first_fault env) as [[[c s] msg] |]; cbn [snd];
      rewrite ?static_logged; apply save_lookup_other; intros; apply Hp. }
  split; [apply Hgen |].
  destruct (predict_cases form st)
    as [[e E] | [(age & income & score & e & Hr & Hv & _ & Herr)
                | (age & income & score & Hr & Hv & _ & Hok)]].
  { rewrite (predict_rejected form e env st E). reflexivity. }
  { rewrite (predict_refused _ _ _ _ e env st Hr Hv Herr). reflexivity. }
  rewrite (predict_accepted _ _ _ _ env st Hr Hv Hok). cbv zeta.
  destruct (makedirs_raises env) as [msg |]; [reflexivity |].
  specialize (Hgen (appended (observation st age income score) st)).
  destruct (generate_visualizations env _) as [[images | e] st2]; simpl in Hgen.
  - destruct (render_raises env); simpl; exact Hgen.
  - simpl. exact Hgen.
Qed.


Lemma save_idempotent cs df st : save cs df (save cs df st) = save cs df st.
Proof.
  assert (static (save cs df (save cs df st)) = static (save cs df st)) as H.
  { apply map_eq. intros p.
    destruct (decide (Exists (fun c => img_path c = p) cs)) as [Hex | Hnex].
    - apply Exists_exists in Hex as (c & Hc & <-). by rewrite !save_lookup_in.
    - apply save_lookup_other. intros c Hc Heq. apply Hnex, Exists_exists. eauto. }
  unfold save in *. destruct st. simpl in *. by rewrite H.
Qed.

(** X9.  Regenerating the charts is idempotent when no plotting call
    raises: a second run on the result of the first returns the same
    result and leaves the same state, the files being replaced by equal
    ones. *)
Theorem regeneration_idempotent (env : Env) (st : State) :
  plots_ok env ->
  generate_visualizations env (snd (generate_visualizations env st)) =
  generate_visualizations env st.
Proof.
  intros Hok. rewrite !generate_visualizations_run.
  rewrite (first_fault_plots_ok env Hok).
  destruct (data_store st) as [| o os] eqn:Hds; cbn [snd]; rewrite ?Hds; [reflexivity |].
  change (data_store (save all_charts (o :: os) st)) with (data_store st).
  rewrite Hds, save_idempotent. reflexivity.
Qed.

Lemma bars_total_insert (bars : gmap nat nat) l h :
  bars_total (<[l := h]> bars) = (h + bars_total (delete l bars))%nat.
Proof.
  rewrite <- insert_delete_eq. unfold bars_total.
  apply (map_fold_insert_L (fun _ h acc => (h + acc)%nat)).
  - intros. lia.
  - apply lookup_delete_eq.
Qed.

Lemma bars_total_lookup (bars : gmap nat nat) l :
  bars_total bars = (default 0%nat (bars !! l) + bars_total (delete l bars))%nat.
Proof.
  destruct (bars !! l) as [h |] eqn:E; simpl.
  - rewrite <- (insert_delete_id bars l h E) at 1.
    rewrite bars_total_insert, delete_delete_eq. reflexivity.
  - by rewrite delete_id.
Qed.

Lemma bars_total_countplot df : bars_total (countplot df) = length df.
Proof.
  induction df as [| o df IH]; [reflexivity |]. simpl.
  rewrite bars_total_insert.
  rewrite (bars_total_lookup (countplot df) (Cluster o)) in IH. lia.
Qed.

Lemma countplot_lookup df l :
  countplot df !! l =
  if decide (count_label l df = 0%nat) then None else Some (count_label l df).
Proof.
  unfold count_label. induction df as [| o df IH]; [reflexivity |]. simpl.
  rewrite filter_cons.
  destruct (decide (Cluster o = l)) as [<- | Hne].
  - rewrite lookup_insert_eq, IH. simpl.
    destruct (decide (length (filter (fun o' => Cluster o' = Cluster o) df) = 0%nat)) as [-> | Hn];
      reflexivity.
  - rewrite lookup_insert_ne by done. exact IH.
Qed.

(** X10.  After a successful generation the cluster distribution chart has
    one bar for each label that occurs in the store and none for the
    others, each bar as high as the number of Observations with that label,
    and the heights add up to the length of the store. *)
Theorem cluster_distribution_counts (env : Env) (st : State) (images : gmap string string) :
  fst (generate_visualizations env st) = Return (Some images) ->
  exists fig bars,
    static (snd (generate_visualizations env st)) !! "static/cluster_distribution.png" =
      Some fig /\
    fig_data fig = CountBars bars /\
    (forall l h, bars !! l = Some h <->
       h = count_label l (data_store st) /\ (0 < h)%nat) /\
    bars_total bars = length (data_store st).
Proof.
  rewrite generate_visualizations_run.
  destruct (data_store st) as [| o os] eqn:Hds; [discriminate |]. rewrite <- Hds.
  destruct (first_fault env) as [[[c s] msg] |]; [discriminate |].
  intros _. exists (figure_of ClusterDistribution (data_store st)), (countplot (data_store st)).
  split; [apply (save_lookup_in all_charts _ st ClusterDistribution), all_charts_complete |].
  split; [reflexivity |]. split; [| apply bars_total_countplot].
  intros l h. rewrite countplot_lookup.
  destruct (decide (count_label l (data_store st) = 0%nat)) as [Hz | Hnz].
  - split; [discriminate |]. intros [-> ?]. lia.
  - split; [intros [= <-]; split; [reflexivity | lia] | intros [-> _]; reflexivity].
Qed.
End StorePipeline.

(** ** Requests written in decimal *)

Section Numerals.
Import Py Numeral.

Lemma scan_digits_uint d : forall acc,
  scan_digits (NilEmpty.string_of_uint d) acc false = Some (uint_value d acc, EmptyString).
Proof.
  induction d; intros acc; simpl; try reflexivity; apply IHd.
Qed.

Lemma count_digits_uint d :
  count_digits (NilEmpty.string_of_uint d) = N.of_nat (Decimal.nb_digits d).
Proof.
  induction d; simpl count_digits; simpl Decimal.nb_digits;
    rewrite ?Nat2N.inj_succ, ?IHd; reflexivity.
Qed.

Lemma of_uint_acc_value d : forall acc,
  Zpos (Pos.of_uint_acc d acc) = uint_value d (Zpos acc).
Proof.
  induction d; intros acc; simpl; try reflexivity; rewrite IHd; f_equal; lia.
Qed.

Lemma of_uint_value d : Z.of_N (Pos.of_uint d) = uint_value d 0.
Proof.
  induction d; simpl; try reflexivity; try exact IHd; apply of_uint_acc_value.
Qed.

Lemma uint_value_lower d : forall acc,
  0 <= acc -> acc * 10 ^ Z.of_nat (Decimal.nb_digits d) <= uint_value d acc.
Proof.
  induction d; intros acc Hacc; cbn [uint_value Decimal.nb_digits];
    [simpl; lia | ..];
    (rewrite Nat2Z.inj_succ, Z.pow_succ_r by lia;
     pose proof (Z.pow_nonneg 10 (Z.of_nat (Decimal.nb_digits d)) ltac:(lia));
     match goal with
     | |- _ <= uint_value d ?a => specialize (IHd a ltac:(lia))
     end; nia).
Qed.

Lemma to_uint_nzhead p : Decimal.nzhead (Pos.to_uint p) = Pos.to_uint p.
Proof.
  pose proof (DecimalPos.Unsigned.to_of (Pos.to_uint p)) as H.
  rewrite DecimalPos.Unsigned.of_to in H. simpl N.to_uint in H.
  pose proof (DecimalPos.Unsigned.to_uint_nonzero p) as Hz.
  unfold Decimal.unorm in H.
  destruct (Decimal.nzhead (Pos.to_uint p)); congruence.
Qed.

Lemma uint_value_digits d :
  Decimal.nzhead d = d -> d <> Decimal.Nil ->
  10 ^ (Z.of_nat (Decimal.nb_digits d) - 1) <= uint_value d 0.
Proof.
  intros Hn Hd. destruct d as [| u | u | u | u | u | u | u | u | u | u]; try congruence;
    cbn [uint_value Decimal.nb_digits];
    rewrite Nat2Z.inj_succ;
    replace (Z.succ (Z.of_nat (Decimal.nb_digits u)) - 1)
      with (Z.of_nat (Decimal.nb_digits u)) by lia.
  1: { exfalso. simpl in Hn. pose proof (nb_digits_nzhead u) as Hle.
       rewrite Hn in Hle. simpl in Hle. lia. }
  all: match goal with
       | |- _ <= uint_value ?v ?a =>
           pose proof (uint_value_lower v a ltac:(lia));
           pose proof (Z.pow_nonneg 10 (Z.of_nat (Decimal.nb_digits v)) ltac:(lia))
       end; nia.
Qed.

Lemma to_uint_value p : uint_value (Pos.to_uint p) 0 = Zpos p.
Proof. rewrite <- of_uint_value, DecimalPos.Unsigned.of_to. reflexivity. Qed.

Lemma to_uint_not_nil p : Pos.to_uint p <> Decimal.Nil.
Proof.
  intros H. pose proof (DecimalPos.Unsigned.of_to p) as Hp. rewrite H in Hp. discriminate.
Qed.

(** A positive number below [10 ^ n] has at most [n] digits. *)
Lemma to_uint_digits p (n : N) :
  Zpos p < 10 ^ Z.of_N n ->
  (count_digits (NilEmpty.string_of_uint (Pos.to_uint p)) <= n)%N.
Proof.
  intros Hlt. rewrite count_digits_uint.
  pose proof (uint_value_digits (Pos.to_uint p) (to_uint_nzhead p) (to_uint_not_nil p)) as Hlow.
  rewrite to_uint_value in Hlow.
  destruct (N.le_gt_cases (N.of_nat (Decimal.nb_digits (Pos.to_uint p))) n) as [| Hgt];
    [assumption | exfalso].
  assert (10 ^ Z.of_N n <= 10 ^ (Z.of_nat (Decimal.nb_digits (Pos.to_uint p)) - 1)).
  { apply Z.pow_le_mono_r; lia. }
  lia.
Qed.

Lemma digit_is_plain a :
  is_digit a = true -> is_space a = false /\ is_minus a = false /\ is_plus a = false.
Proof.
  unfold is_digit, is_space, is_minus, is_plus. generalize (code a). intros n H.
  apply andb_true_iff in H as [H1 H2]. apply N.leb_le in H1, H2.
  repeat split; repeat (apply orb_false_iff; split);
    try (apply andb_false_iff; right); try apply N.leb_gt; try apply N.eqb_neq; lia.
Qed.

Lemma int_of_string_digits a r z :
  is_digit a = true -> scan_digits (String a r) 0 false = Some (z, EmptyString) ->
  (count_digits (String a r) <= max_str_digits)%N ->
  int_of_string (String a r) = Some z.
Proof.
  intros Hd Hs Hc. destruct (digit_is_plain a Hd) as (Hsp & Hmi & Hpl).
  apply N.ltb_ge in Hc.
  unfold int_of_string. cbn [skip_space]. rewrite Hsp, Hmi, Hpl, Hd, Hs, Hc. reflexivity.
Qed.

Lemma int_of_string_negative a r z :
  is_digit a = true -> scan_digits (String a r) 0 false = Some (z, EmptyString) ->
  (count_digits (String a r) <= max_str_digits)%N ->
  int_of_string (String "-" (String a r)) = Some (- z).
Proof.
  intros Hd Hs Hc. apply N.ltb_ge in Hc.
  assert (is_space "-" = false) as Hsp by reflexivity.
  assert (is_minus "-" = true) as Hmi by reflexivity.
  unfold int_of_string. cbn [skip_space]. rewrite Hsp, Hmi, Hd, Hs, Hc. reflexivity.
Qed.

Lemma string_of_uint_digit d :
  d <> Decimal.Nil ->
  exists a r, NilEmpty.string_of_uint d = String a r /\ is_digit a = true.
Proof. destruct d; intros H; try congruence; simpl; eauto. Qed.

Lemma int_of_string_positive p :
  Zpos p < 10 ^ Z.of_N max_str_digits ->
  int_of_string (NilEmpty.string_of_uint (Pos.to_uint p)) = Some (Zpos p) /\
  int_of_string (String "-" (NilEmpty.string_of_uint (Pos.to_uint p))) = Some (Zneg p).
Proof.
  intros Hlim. apply to_uint_digits in Hlim.
  destruct (string_of_uint_digit _ (to_uint_not_nil p)) as (a & r & Hs & Hd).
  pose proof (scan_digits_uint (Pos.to_uint p) 0) as Hscan.
  rewrite to_uint_value in Hscan.
  rewrite Hs in *. split.
  - apply int_of_string_digits; assumption.
  - apply (int_of_string_negative a r (Zpos p)); assumption.
Qed.

Lemma int_str (z : Z) : within_limit z -> int_of_string (str z) = Some z.
Proof.
  unfold within_limit, str. destruct z as [| p | p]; [reflexivity | |]; intros Hlim;
    simpl Z.abs in Hlim; simpl Z.to_int;
    unfold NilZero.string_of_int, NilZero.string_of_uint.
  - pose proof (to_uint_not_nil p). destruct (Pos.to_uint p) eqn:E; try congruence;
      rewrite <- E; apply int_of_string_positive, Hlim.
  - pose proof (to_uint_not_nil p). destruct (Pos.to_uint p) eqn:E; try congruence;
      rewrite <- E; apply int_of_string_positive, Hlim.
Qed.

Lemma field_str (form : gmap string string) key z :
  within_limit z -> form !! key = Some (str z) -> App.field form key = Some z.
Proof.
  intros Hlim H. unfold App.field, App.form_get. rewrite H. simpl.
  rewrite (int_str z Hlim). reflexivity.
Qed.

(** X11.  What [/predict] stores is what was typed.  When the three fields
    are the decimal numerals of three integers, each of no more digits
    than [int()] converts, the route reads exactly those integers; it
    appends them with their label when they pass the range check and the
    scaler and the model accept them, and leaves the store as it was when
    they fail the check or an artifact raises. *)
Theorem decimal_request_is_stored
  (form : gmap string string) (age income score : Z) (env : App.Env) (st : App.State) :
  form !! "age" = Some (str age) ->
  form !! "income" = Some (str income) ->
  form !! "score" = Some (str score) ->
  within_limit age -> within_limit income -> within_limit score ->
  App.reads form age income score /\
  App.data_store (snd (App.predict form env st)) =
    if App.in_range age income score
    then match App.assignment_error st age income score with
         | None =>
             App.data_store st ++
             [{| App.Age := age; App.Income := income; App.Score := score;
                 App.Cluster := App.label_of st age income score |}]
         | Some _ => App.data_store st
         end
    else App.data_store st.
Proof.
  intros Ha Hi Hs La Li Ls.
  assert (App.reads form age income score) as Hr.
  { repeat split; apply field_str; assumption. }
  split; [exact Hr |].
  destruct (App.in_range age income score) eqn:E.
  - apply in_range_valid in E.
    destruct (App.assignment_error st age income score) as [e |] eqn:Herr.
    + rewrite (predict_refused _ _ _ _ e env st Hr E Herr). reflexivity.
    + apply predict_accepted_store; assumption.
  - assert (App.validation_error form = Some (ValueError "Invalid input values")) as Hv.
    { destruct Hr as (H1 & H2 & H3). unfold App.validation_error.
      rewrite (field_int _ _ _ H1), (field_int _ _ _ H2), (field_int _ _ _ H3), E.
      reflexivity. }
    rewrite (predict_rejected form _ env st Hv). reflexivity.
Qed.
End Numerals.

(** ** The identity routes and the gate *)

Section Gate.
Import App Site.

Lemma load_user_run uid rq w :
  load_user uid rq w =
  match select_eq_id (backend rq) uid with
  | inr (r :: _) =>
      (Return (Some {| user_id := row_id r; user_email := Some (row_email r);
                       user_password := row_password r |}), w)
  | inr [] => (Return None, w)
  | inl e => (Return None, set_console (console w ++ [ErrorLoadingUser e]) w)
  end.
Proof.
  unfold load_user, w_try, users_by_id, mbind, W_bind, w_bind, w_ask, call. simpl.
  destruct (select_eq_id (backend rq) uid) as [e | [| r rows]]; reflexivity.
Qed.

Lemma unauthorized_run rq w :
  unauthorized rq w = (Return (Redirect "login"), turned_away w).
Proof. reflexivity. Qed.

Lemma login_required_run view rq w :
  login_required view rq w =
  match session w with
  | None => (Return (Redirect "login"), turned_away w)
  | Some uid =>
      match select_eq_id (backend rq) uid with
      | inr (_ :: _) => view rq w
      | inr [] => (Return (Redirect "login"), turned_away w)
      | inl e =>
          (Return (Redirect "login"),
           turned_away (set_console (console w ++ [ErrorLoadingUser e]) w))
      end
  end.
Proof.
  unfold login_required. unfold mbind at 1. unfold W_bind, w_bind, w_get.
  destruct (session w) as [uid |]; [| reflexivity].
  unfold mbind, W_bind, w_bind. rewrite load_user_run.
  destruct (select_eq_id (backend rq) uid) as [e | [| r rows]]; reflexivity.
Qed.

Lemma login_required_anonymous view rq w :
  anonymous rq w ->
  fst (login_required view rq w) = Return (Redirect "login") /\
  untouched w (snd (login_required view rq w)) /\
  notices (snd (login_required view rq w)) = notices (turned_away w).
Proof.
  unfold anonymous. rewrite login_required_run.
  destruct (session w) as [uid |].
  - destruct (select_eq_id (backend rq) uid) as [e | [| r rows]]; intros H;
      try contradiction; repeat split.
  - intros _. repeat split.
Qed.

Lemma set_pipeline_id w : set_pipeline (pipeline w) w = w.
Proof. destruct w; reflexivity. Qed.

Lemma render_template_run name rq w :
  render_template name rq w =
  match render_raises (env rq) with
  | Some msg => (Raised (Py.Fault msg), w)
  | None => (Return (Rendered name None None), w)
  end.
Proof.
  unfold render_template, lift, App.render_template, mbind, M_bind, bind, ask, may_raise.
  simpl. destruct (render_raises (env rq)); simpl; by rewrite set_pipeline_id.
Qed.

Lemma register_run method form rq w :
  register method form rq w =
  match method with
  | POST => finish "register.html" (register_try form rq w) rq
  | GET => finish "register.html" (None, w) rq
  end.
Proof.
  unfold register, finish, register_try. destruct method.
  { unfold mbind at 1. unfold W_bind, w_bind. simpl. apply render_template_run. }
  unfold mbind at 1. unfold W_bind, w_bind, w_try.
  unfold users_by_email, users_insert, call, mbind, W_bind, w_bind, w_ask.
  cbn [fst snd].
  destruct (select_eq_email (backend rq) (form !! "email")) as [e | [| r rows]];
    cbn; try apply render_template_run; try reflexivity.
  destruct (generate_password_hash (backend rq) (form !! "password")) as [e | h];
    cbn; try apply render_template_run.
  destruct (insert_raises (backend rq) (form !! "email") h) as [msg |];
    cbn; try apply render_template_run; reflexivity.
Qed.

Lemma login_run method form rq w :
  login method form rq w =
  match method with
  | POST => finish "login.html" (login_try form rq w) rq
  | GET => finish "login.html" (None, w) rq
  end.
Proof.
  unfold login, finish, login_try. destruct method.
  { unfold mbind at 1. unfold W_bind, w_bind. simpl. apply render_template_run. }
  unfold mbind at 1. unfold W_bind, w_bind, w_try.
  unfold users_by_email, call, mbind, W_bind, w_bind, w_ask.
  cbn [fst snd].
  destruct (select_eq_email (backend rq) (form !! "email")) as [e | [| r rows]];
    cbn; try apply render_template_run.
  destruct (check_password_hash (backend rq) (row_password r) (form !! "password"))
    as [e | [|]]; cbn; try apply render_template_run; reflexivity.
Qed.

Lemma lift_run {A} (m : M A) rq w :
  lift m rq w = (fst (m (env rq) (pipeline w)), set_pipeline (snd (m (env rq) (pipeline w))) w).
Proof. unfold lift. destruct (m (env rq) (pipeline w)); reflexivity. Qed.

Lemma login_required_authenticated view rq w :
  authenticated rq w -> login_required view rq w = view rq w.
Proof.
  intros (uid & row & rows & Hs & Hsel). rewrite login_required_run, Hs, Hsel. reflexivity.
Qed.

Lemma gate_blocked form rq w :
  session w = None ->
  fst (predict form rq w) = Return (Redirect "login") /\
  pipeline (snd (predict form rq w)) = pipeline w /\
  notices (snd (predict form rq w)) = notices (turned_away w).
Proof.
  intros Hs. destruct (login_required_anonymous (lift (App.predict form)) rq w)
    as (Hr & (Hp & _) & Hn); [unfold anonymous; by rewrite Hs |].
  auto.
Qed.

(** X12.  Without a session that names a user the table still returns
    (no session, a user that is gone, or a lookup that raises), [/predict],
    [/dashboard] and [/logout] do not run: each redirects to the login
    page after the message of the login manager, and the pipeline state,
    the session and the inserted rows are as they were. *)
Theorem gate_turns_anonymous_away (form : gmap string string) (rq : Request) (w : World) :
  anonymous rq w ->
  (fst (predict form rq w) = Return (Redirect "login") /\
   untouched w (snd (predict form rq w)) /\
   notices (snd (predict form rq w)) = notices (turned_away w)) /\
  (fst (dashboard rq w) = Return (Redirect "login") /\
   untouched w (snd (dashboard rq w)) /\
   notices (snd (dashboard rq w)) = notices (turned_away w)) /\
  (fst (logout rq w) = Return (Redirect "login") /\
   untouched w (snd (logout rq w)) /\
   notices (snd (logout rq w)) = notices (turned_away w)).
Proof.
  intros H. unfold predict, dashboard, logout.
  split; [| split]; apply login_required_anonymous, H.
Qed.

(** X13.  For a logged-in user the gated [/predict] is the prediction
    pipeline itself: same response, same new pipeline state, and nothing
    else of the site changes. *)
Theorem gate_lets_user_through (form : gmap string string) (rq : Request) (w : World) :
  authenticated rq w ->
  fst (predict form rq w) = fst (App.predict form (env rq) (pipeline w)) /\
  pipeline (snd (predict form rq w)) = snd (App.predict form (env rq) (pipeline w)) /\
  session (snd (predict form rq w)) = session w /\
  inserted (snd (predict form rq w)) = inserted w /\
  notices (snd (predict form rq w)) = notices w /\
  console (snd (predict form rq w)) = console w.
Proof.
  intros H. unfold predict. rewrite (login_required_authenticated _ rq w H), lift_run.
  repeat split.
Qed.

(** X14.  [/register] asks for at most one insert per request, only on a
    POST whose email lookup returned no row, and the row it inserts holds
    the email of the form and the value [generate_password_hash] returned
    for the password; it then redirects to the login page. *)
Theorem register_inserts_hash_once
  (method : Method) (form : gmap string string) (rq : Request) (w : World) :
  inserted (snd (register method form rq w)) = inserted w \/
  exists h,
    method = POST /\
    select_eq_email (backend rq) (form !! "email") = inr [] /\
    generate_password_hash (backend rq) (form !! "password") = inr h /\
    inserted (snd (register method form rq w)) = inserted w ++ [(form !! "email", h)] /\
    fst (register method form rq w) = Return (Redirect "login").
Proof.
  rewrite register_run. destruct method.
  { left. unfold finish. destruct (render_raises (env rq)); reflexivity. }
  unfold register_try, finish.
  destruct (select_eq_email (backend rq) (form !! "email")) as [e | [| r rows]] eqn:Es;
    try (left; destruct (render_raises (env rq)); reflexivity).
  destruct (generate_password_hash (backend rq) (form !! "password")) as [e | h] eqn:Eh;
    try (left; destruct (render_raises (env rq)); reflexivity).
  destruct (insert_raises (backend rq) (form !! "email") h) as [msg |] eqn:Ei;
    try (left; destruct (render_raises (env rq)); reflexivity).
  right. exists h. repeat split.
Qed.

(** X15.  Registering an email the table already returns a row for
    inserts nothing: the route flashes [Email already registered] and
    redirects to the registration page. *)
Theorem register_existing_email
  (form : gmap string string) (rq : Request) (w : World) (row : UserRow) (rows : list UserRow) :
  select_eq_email (backend rq) (form !! "email") = inr (row :: rows) ->
  register POST form rq w =
  (Return (Redirect "register"), noticed "Email already registered" w).
Proof.
  intros H. rewrite register_run. unfold register_try. rewrite H. reflexivity.
Qed.

(** X16.  No exception of the user table or of the password functions
    leaves [/login] or [/register]: the only exception either route can
    raise is one of the final template rendering.  When the email lookup
    raises, each route flashes its error message and prints the
    exception. *)
Theorem identity_routes_contain_service_errors
  (method : Method) (form : gmap string string) (rq : Request) (w : World) :
  (forall e, fst (login method form rq w) = Raised e ->
     exists msg, render_raises (env rq) = Some msg /\ e = Py.Fault msg) /\
  (forall e, fst (register method form rq w) = Raised e ->
     exists msg, render_raises (env rq) = Some msg /\ e = Py.Fault msg) /\
  (forall e, method = POST -> select_eq_email (backend rq) (form !! "email") = inl e ->
     snd (login method form rq w) =
       printed (LoginError e) (noticed "Error during login" w) /\
     snd (register method form rq w) =
       printed (RegistrationError e) (noticed "Error during registration" w)).
Proof.
  rewrite login_run, register_run. split; [| split].
  - intros e. destruct method; [| destruct (login_try form rq w) as [[r |] w']];
      unfold finish; try discriminate;
      destruct (render_raises (env rq)) as [msg |]; try discriminate;
      intros [= <-]; eauto.
  - intros e. destruct method; [| destruct (register_try form rq w) as [[r |] w']];
      unfold finish; try discriminate;
      destruct (render_raises (env rq)) as [msg |]; try discriminate;
      intros [= <-]; eauto.
  - intros e -> He. unfold login_try, register_try, finish. rewrite He.
    destruct (render_raises (env rq)); split; reflexivity.
Qed.

(** X17.  [/login] changes the session only on a POST for which the email
    lookup returned a row and [check_password_hash] accepted the password
    against the first row's hash; the session then names that row's id, and
    the response is the redirect to the dashboard.  In every other case the
    session is as it was and the response is not that redirect. *)
Theorem login_sets_session_on_match
  (method : Method) (form : gmap string string) (rq : Request) (w : World) :
  (fst (login method form rq w) <> Return (Redirect "dashboard") /\
   session (snd (login method form rq w)) = session w) \/
  (exists row rows,
     method = POST /\
     select_eq_email (backend rq) (form !! "email") = inr (row :: rows) /\
     check_password_hash (backend rq) (row_password row) (form !! "password") = inr true /\
     login method form rq w =
       (Return (Redirect "dashboard"), set_session (Some (row_id row)) w)).
Proof.
  rewrite login_run. destruct method.
  { left. unfold finish. destruct (render_raises (env rq)); split; (discriminate || reflexivity). }
  unfold login_try, finish.
  destruct (select_eq_email (backend rq) (form !! "email")) as [e | [| r rows]] eqn:Es;
    try (left; destruct (render_raises (env rq)); split; (discriminate || reflexivity)).
  destruct (check_password_hash (backend rq) (row_password r) (form !! "password"))
    as [e | [|]] eqn:Ec;
    try (left; destruct (render_raises (env rq)); split; (discriminate || reflexivity)).
  right. exists r, rows. repeat split. exact Ec.
Qed.

Lemma finish_pipeline name r rq w :
  pipeline (snd r) = pipeline w -> pipeline (snd (finish name r rq)) = pipeline w.
Proof.
  destruct r as [[resp |] w']; simpl; [trivial |].
  destruct (render_raises (env rq)); trivial.
Qed.

(** X18.  The identity and page routes never touch the pipeline state
    (store, artifacts, chart files), and [/predict] never touches the
    session or the inserted rows. *)
Theorem routes_keep_apart
  (method : Method) (form : gmap string string) (rq : Request) (w : World) :
  pipeline (snd (login method form rq w)) = pipeline w /\
  pipeline (snd (register method form rq w)) = pipeline w /\
  pipeline (snd (logout rq w)) = pipeline w /\
  pipeline (snd (home rq w)) = pipeline w /\
  pipeline (snd (about rq w)) = pipeline w /\
  pipeline (snd (contact rq w)) = pipeline w /\
  pipeline (snd (dashboard rq w)) = pipeline w /\
  inserted (snd (predict form rq w)) = inserted w /\
  session (snd (predict form rq w)) = session w.
Proof.
  rewrite login_run, register_run.
  unfold home, about, contact. rewrite !render_template_run.
  unfold logout, dashboard, predict. rewrite !login_required_run.
  repeat split.
  - destruct method; apply finish_pipeline; [reflexivity |].
    unfold login_try.
    destruct (select_eq_email (backend rq) (form !! "email")) as [e | [| r rows]];
      try reflexivity.
    destruct (check_password_hash _ _ _) as [e | [|]]; reflexivity.
  - destruct method; apply finish_pipeline; [reflexivity |].
    unfold register_try.
    destruct (select_eq_email (backend rq) (form !! "email")) as [e | [| r rows]];
      try reflexivity.
    destruct (generate_password_hash _ _) as [e | h]; try reflexivity.
    destruct (insert_raises _ _ _); reflexivity.
  - destruct (session w) as [uid |]; [| reflexivity].
    destruct (select_eq_id (backend rq) uid) as [e | [| r rows]]; reflexivity.
  - destruct (render_raises (env rq)); reflexivity.
  - destruct (render_raises (env rq)); reflexivity.
  - destruct (render_raises (env rq)); reflexivity.
  - destruct (session w) as [uid |]; [| reflexivity].
    destruct (select_eq_id (backend rq) uid) as [e | [| r rows]]; try reflexivity.
    rewrite lift_run. simpl. apply dashboard_unchanged.
  - destruct (session w) as [uid |]; [| reflexivity].
    destruct (select_eq_id (backend rq) uid) as [e | [| r rows]]; try reflexivity.
    rewrite lift_run. reflexivity.
  - destruct (session w) as [uid |] eqn:Hs; [| exact Hs].
    destruct (select_eq_id (backend rq) uid) as [e | [| r rows]]; try exact Hs.
    rewrite lift_run. exact Hs.
Qed.

(** X19.  After a logged-in user logs out, the session is empty and a
    following [/predict], whatever its form and environment, is redirected
    to the login page and leaves the pipeline state as it was before the
    logout. *)
Theorem logout_closes_the_gate
  (form : gmap string string) (rq rq' : Request) (w : World) :
  authenticated rq w ->
  logout rq w = (Return (Redirect "home"), set_session None w) /\
  fst (predict form rq' (snd (logout rq w))) = Return (Redirect "login") /\
  pipeline (snd (predict form rq' (snd (logout rq w)))) = pipeline w.
Proof.
  intros H.
  assert (logout rq w = (Return (Redirect "home"), set_session None w)) as Hout.
  { unfold logout. rewrite (login_required_authenticated _ rq w H). reflexivity. }
  split; [exact Hout |]. rewrite Hout. cbn [snd].
  destruct (gate_blocked form rq' (set_session None w)) as (Hr & Hu & _); [reflexivity |].
  split; [exact Hr | exact Hu].
Qed.

(** X20.  Registration, login and the gate compose.  When a registration
    is accepted, and afterwards the email lookup returns a row that holds
    the hash that was inserted and [check_password_hash] accepts the
    password against it, then logging in with the same form opens a session
    for that row; and while the table returns that row for its id, the
    gated [/predict] runs the pipeline. *)
Theorem register_then_login
  (form pform : gmap string string) (rq1 rq2 rq3 : Request) (w : World)
  (h : string) (row : UserRow) (rows rows' : list UserRow) :
  select_eq_email (backend rq1) (form !! "email") = inr [] ->
  generate_password_hash (backend rq1) (form !! "password") = inr h ->
  insert_raises (backend rq1) (form !! "email") h = None ->
  select_eq_email (backend rq2) (form !! "email") = inr (row :: rows) ->
  row_password row = h ->
  check_password_hash (backend rq2) h (form !! "password") = inr true ->
  select_eq_id (backend rq3) (row_id row) = inr (row :: rows') ->
  fst (register POST form rq1 w) = Return (Redirect "login") /\
  inserted (snd (register POST form rq1 w)) = inserted w ++ [(form !! "email", h)] /\
  fst (login POST form rq2 (snd (register POST form rq1 w))) =
    Return (Redirect "dashboard") /\
  session (snd (login POST form rq2 (snd (register POST form rq1 w)))) =
    Some (row_id row) /\
  fst (predict pform rq3 (snd (login POST form rq2 (snd (register POST form rq1 w))))) =
    fst (App.predict pform (env rq3) (pipeline w)).
Proof.
  intros Hsel Hhash Hins Hsel2 Hpw Hcheck Hid.
  rewrite register_run. unfold register_try. rewrite Hsel, Hhash, Hins. cbn [finish fst snd].
  split; [reflexivity |]. split; [reflexivity |].
  rewrite login_run. unfold login_try. rewrite Hsel2, Hpw, Hcheck. cbn [finish fst snd].
  split; [reflexivity |]. split; [reflexivity |].
  unfold predict. rewrite login_required_run. cbn [session set_session].
  rewrite Hid, lift_run. reflexivity.
Qed.
End Gate.

(** ** Further concrete runs *)

Section FurtherRuns.

Import App Sample.

Lemma predict_page_sound_witness :
  exists age income score,
    reads (request "25" "40" "60") age income score /\ valid age income score /\
    assignment_error fresh age income score = None /\
    makedirs_raises calm = None /\ render_raises calm = None /\
    "index.html" = "index.html" /\
    Some "Customer belongs to Cluster 3" =
      Some ("Customer belongs to Cluster " +:+ Py.format_nat (label_of fresh age income score)) /\
    data_store (snd (predict (request "25" "40" "60") calm fresh)) =
      data_store fresh ++ [observation fresh age income score] /\
    (Some four_charts = Some four_charts /\ plots_ok calm \/
     Some four_charts = None /\ plot_fails calm).
Proof.
  apply (predict_page_sound (request "25" "40" "60") calm fresh).
  vm_compute. reflexivity.
Defined.

Lemma store_stays_well_formed_witness :
  Forall (Store.well_formed fresh)
    (data_store (run [CallPredict calm (request "25" "40" "60");
                      CallPredict calm (request "25" "40" "0")] fresh)).
Proof.
  apply (store_stays_well_formed
           [CallPredict calm (request "25" "40" "60");
            CallPredict calm (request "25" "40" "0")] fresh).
  simpl. constructor.
Defined.

Lemma served_store_invariant_witness :
  length (data_store (run [CallPredict calm (request "25" "40" "60")] fresh)) =
  length (filter (fun c => is_Some (submitted fresh c))
            [CallPredict calm (request "25" "40" "60")]).
Proof.
  apply (served_store_invariant SiteSample.files0 ∅ fresh [Store.ModelsLoaded]
           [CallPredict calm (request "25" "40" "60")]).
  reflexivity.
Defined.

Lemma returned_charts_exist_witness :
  exists c, "age_vs_score" = chart_key c /\
    static (snd (generate_visualizations calm one_seen)) !! ("static/" +:+ "age_vs_score.png") =
    Some (figure_of c (data_store one_seen)).
Proof.
  apply (returned_charts_exist calm one_seen four_charts).
  - vm_compute. reflexivity.
  - vm_compute. reflexivity.
Defined.

Lemma page_charts_show_new_observation_witness :
  exists o,
    data_store (snd (predict (request "30" "70" "20") calm one_seen)) =
      data_store one_seen ++ [o] /\
    forall c, static (snd (predict (request "30" "70" "20") calm one_seen)) !! img_path c =
              Some (figure_of c (data_store one_seen ++ [o])).
Proof.
  apply (page_charts_show_new_observation (request "30" "70" "20") calm one_seen
           "index.html" (Some "Customer belongs to Cluster 2") four_charts).
  vm_compute. reflexivity.
Defined.

Lemma only_chart_files_written_witness :
  static (snd (generate_visualizations calm one_seen)) !! "static/logo.png" =
    static one_seen !! "static/logo.png" /\
  static (snd (predict (request "30" "70" "20") calm one_seen)) !! "static/logo.png" =
    static one_seen !! "static/logo.png".
Proof.
  apply (only_chart_files_written (request "30" "70" "20") calm one_seen "static/logo.png").
  intros [] H; vm_compute in H; discriminate.
Defined.


Example disk_full_mixed_files :
  static (snd (generate_visualizations disk_full (set_static ∅ one_seen))) !!
    "static/age_vs_score.png" = Some (figure_of AgeVsScore (data_store one_seen)) /\
  static (snd (generate_visualizations disk_full (set_static ∅ one_seen))) !!
    "static/age_vs_income.png" = None.
Proof. vm_compute. split; reflexivity. Qed.

Lemma regeneration_idempotent_witness :
  generate_visualizations calm (snd (generate_visualizations calm one_seen)) =
  generate_visualizations calm one_seen.
Proof.
  apply (regeneration_idempotent calm one_seen).
  intros c s. reflexivity.
Defined.

Lemma cluster_distribution_counts_witness :
  exists fig bars,
    static (snd (generate_visualizations calm one_seen)) !! "static/cluster_distribution.png" =
      Some fig /\
    fig_data fig = CountBars bars /\
    (forall l h, bars !! l = Some h <->
       h = Store.count_label l (data_store one_seen) /\ (0 < h)%nat) /\
    Store.bars_total bars = length (data_store one_seen).
Proof.
  apply (cluster_distribution_counts calm one_seen four_charts).
  vm_compute. reflexivity.
Defined.

Lemma decimal_request_is_stored_witness :
  reads (request (Numeral.str 25) (Numeral.str 40) (Numeral.str 60)) 25 40 60.
Proof.
  apply (decimal_request_is_stored
           (request (Numeral.str 25) (Numeral.str 40) (Numeral.str 60)) 25 40 60 calm fresh);
    vm_compute; reflexivity.
Defined.

Example str_25 : Numeral.str 25 = "25" /\ Numeral.str (-3) = "-3" /\ Numeral.str 0 = "0".
Proof. repeat split. Qed.

End FurtherRuns.

Section SiteRuns.

Import App Site SiteSample.

Lemma gate_turns_anonymous_away_witness :
  fst (predict (Sample.request "25" "40" "60") (quiet with_alice) visitor) =
    Return (Redirect "login") /\
  untouched visitor (snd (predict (Sample.request "25" "40" "60") (quiet with_alice) visitor)).
Proof.
  destruct (gate_turns_anonymous_away (Sample.request "25" "40" "60") (quiet with_alice) visitor)
    as ((Hr & Hu & _) & _).
  - exact I.
  - split; [exact Hr | exact Hu].
Defined.

Example gate_stale_session :
  fst (predict (Sample.request "25" "40" "60") (quiet nobody) alice_in) =
    Return (Redirect "login") /\
  fst (predict (Sample.request "25" "40" "60") (quiet unreachable) alice_in) =
    Return (Redirect "login") /\
  console (snd (predict (Sample.request "25" "40" "60") (quiet unreachable) alice_in)) =
    [ErrorLoadingUser (Py.Fault "connection refused")].
Proof. vm_compute. repeat split. Qed.

Lemma gate_lets_user_through_witness :
  fst (predict (Sample.request "25" "40" "60") (quiet with_alice) alice_in) =
  fst (App.predict (Sample.request "25" "40" "60") Sample.calm Sample.fresh).
Proof.
  apply (gate_lets_user_through (Sample.request "25" "40" "60") (quiet with_alice) alice_in).
  exists "7", alice, []. split; reflexivity.
Defined.

Lemma register_existing_email_witness :
  register POST signup (quiet with_alice) visitor =
  (Return (Redirect "register"), noticed "Email already registered" visitor).
Proof.
  apply (register_existing_email signup (quiet with_alice) visitor alice []).
  reflexivity.
Defined.

Lemma logout_closes_the_gate_witness :
  logout (quiet with_alice) alice_in = (Return (Redirect "home"), set_session None alice_in).
Proof.
  apply (logout_closes_the_gate (Sample.request "25" "40" "60")
           (quiet with_alice) (quiet with_alice) alice_in).
  exists "7", alice, []. split; reflexivity.
Defined.

Lemma register_then_login_witness :
  fst (register POST signup (quiet nobody) visitor) = Return (Redirect "login") /\
  inserted (snd (register POST signup (quiet nobody) visitor)) =
    [(Some "alice@example.com", "hashed:secret")].
Proof.
  destruct (register_then_login signup (Sample.request "25" "40" "60")
              (quiet nobody) (quiet with_alice) (quiet with_alice) visitor
              "hashed:secret" alice [] [])
    as (H1 & H2 & _); try reflexivity.
  split; [exact H1 | exact H2].
Defined.

Example register_without_password :
  register POST (<["email" := "bob@example.com"]> ∅) (quiet nobody) visitor =
  (Return (Rendered "register.html" None None),
   printed (RegistrationError (Py.Fault "'NoneType' object has no attribute 'encode'"))
     (noticed "Error during registration" visitor)).
Proof. reflexivity. Qed.

Example login_wrong_password :
  login POST (<["email" := "alice@example.com"]> (<["password" := "guess"]> ∅))
    (quiet with_alice) visitor =
  (Return (Rendered "login.html" None None), noticed "Invalid email or password" visitor).
Proof. reflexivity. Qed.

End SiteRuns.
